(** * Visual script node user data: payload variants and their dispatch table

    A shallow embedding of
    [Code/EnginePlugins/VisualScriptPlugin/Runtime/VisualScriptNodeUserData.h]:
    the four [NodeUserData_*] records with their [Serialize], [Deserialize]
    and [ToString] functions, the table [s_TypeToUserDataContexts] and
    [GetUserDataContext].

    Pointers into the reflection data ([const ezRTTI*],
    [const ezAbstractProperty*]) are [option]s of the object they point to,
    [nullptr] being [None].  Streams are lists of bytes.  The functions that
    take [ezStreamReader&], the node and the arena cursor by reference run in
    a small state monad over those three and the log. *)

From Stdlib Require Import NArith List String Ascii Strings.Byte Lia.
From stdpp Require Import gmap strings list.

Import ListNotations.

(** ** Foundation: results, streams, enums, reflection *)

Inductive ezResult := EZ_SUCCESS | EZ_FAILURE.

(** [ezLog::Error(format, args...)]: the format string and its arguments, in
    the order they are passed. *)
Record ezLogMsg := Error { msg_format : string; msg_args : list string }.

Module ezStream.

(** Modelled from the spec: [ezStreamWriter], [ezStreamReader] and their
    [<<] and [>>] operators (Foundation/IO/Stream.h) are missing from the
    sources.  The spec has "all fields as length-prefixed strings or
    fixed-width scalars per the stream's existing primitive conventions":
    a string is its byte count as a 32-bit little-endian value followed by
    its bytes, an [ezEnum] is its one-byte storage value.  The stream is a
    memory stream: a writer appends, a reader hands out as many of the
    requested bytes as are left. *)
Definition byte_of_N (n : N) : byte :=
  match Byte.of_N (n mod 256) with
  | Some b => b
  | None => x00
  end.

Definition WriteBytes (data : list byte) (inout_stream : list byte) : list byte :=
  inout_stream ++ data.

Definition ReadBytes (uiBytesToRead : nat) (inout_stream : list byte)
  : list byte * list byte :=
  (take uiBytesToRead inout_stream, drop uiBytesToRead inout_stream).

Definition DWordBytes (v : N) : list byte :=
  [byte_of_N v; byte_of_N (v / 2 ^ 8); byte_of_N (v / 2 ^ 16); byte_of_N (v / 2 ^ 24)].

Definition WriteDWordValue (v : N) (inout_stream : list byte) : list byte :=
  WriteBytes (DWordBytes v) inout_stream.

Definition ReadDWordValue (inout_stream : list byte) : ezResult * N * list byte :=
  let '(bs, rest) := ReadBytes 4 inout_stream in
  match bs with
  | [b0; b1; b2; b3] =>
      (EZ_SUCCESS,
       (Byte.to_N b0 + 2 ^ 8 * Byte.to_N b1 + 2 ^ 16 * Byte.to_N b2
        + 2 ^ 24 * Byte.to_N b3)%N,
       rest)
  | _ => (EZ_FAILURE, 0%N, rest)
  end.

(** [ezStringView::GetElementCount] is an [ezUInt32]. *)
Definition GetElementCount (s : string) : N :=
  (N.of_nat (String.length s) mod 2 ^ 32)%N.

Definition StringBytes (s : string) : list byte :=
  let uiCount := GetElementCount s in
  DWordBytes uiCount ++ take (N.to_nat uiCount) (list_byte_of_string s).

(** [inout_stream << sValue] for a string. *)
Definition WriteString (s : string) (inout_stream : list byte) : list byte :=
  WriteBytes (StringBytes s) inout_stream.

(** [inout_stream >> sValue] for an [ezStringBuilder], which starts out
    empty: the result of [ReadString] is dropped by the operator. *)
Definition ReadString (inout_stream : list byte) : string * list byte :=
  match ReadDWordValue inout_stream with
  | (EZ_SUCCESS, uiCount, rest) =>
      let '(bs, rest') := ReadBytes (N.to_nat uiCount) rest in
      (string_of_list_byte bs, rest')
  | (EZ_FAILURE, _, rest) => (EmptyString, rest)
  end.

(** [inout_stream << value] for an [ezEnum]: the storage value. *)
Definition EnumBytes (value : byte) : list byte := [value].

Definition WriteEnum (value : byte) (inout_stream : list byte) : list byte :=
  WriteBytes (EnumBytes value) inout_stream.

(** [inout_stream >> value] for an [ezEnum]; [value] keeps what it held
    when the stream is exhausted. *)
Definition ReadEnum (value : byte) (inout_stream : list byte) : byte * list byte :=
  let '(bs, rest) := ReadBytes 1 inout_stream in
  match bs with
  | [b] => (b, rest)
  | _ => (value, rest)
  end.

End ezStream.

(** An [ezEnum<T>] holds the storage value of [T], one byte; nothing in it
    restricts that value to the enumerants [T] declares. *)
Definition ezEnum := byte.

(** Modelled from the spec: the declarations of [ezComparisonOperator] and
    [ezScriptCoroutineCreationMode] and [ezReflectionUtils::EnumerationToString]
    are missing from the sources.  What the code uses of an enum type is the
    value a default-constructed [ezEnum] holds and the "display name" the
    reflection gives for a value in [EnumConversionMode::ValueNameOnly]. *)
Record ezEnumType := {
  Default : ezEnum;
  EnumerationToString : ezEnum -> string
}.

(** Objects of the reflection system.  [address] is the identity of the
    object, what a pointer to it holds. *)
Record ezAbstractProperty := {
  address : N;
  GetPropertyName : string
}.

(** The functions of a type are [ezAbstractFunctionProperty] objects, which
    are [ezAbstractProperty] objects; the two lists are separate. *)
Record ezRTTI := {
  GetTypeName : string;
  GetProperties : list ezAbstractProperty;
  GetFunctions : list ezAbstractProperty
}.

(** The types the template parameter [T] of [ReadProperty] can be deduced
    to, for [std::is_same]. *)
Inductive CppType :=
  | ty_ezAbstractProperty
  | ty_ezAbstractFunctionProperty
  | ty_const (t : CppType)
  | ty_pointer (t : CppType).

Fixpoint is_same (a b : CppType) : bool :=
  match a, b with
  | ty_ezAbstractProperty, ty_ezAbstractProperty => true
  | ty_ezAbstractFunctionProperty, ty_ezAbstractFunctionProperty => true
  | ty_const a', ty_const b' => is_same a' b'
  | ty_pointer a', ty_pointer b' => is_same a' b'
  | _, _ => false
  end.

(** Modelled from the spec: the declaration of [ezRTTI] is missing from the
    sources.  [GetProperties()] and [GetFunctions()] give an [ezArrayPtr<T>]
    whose elements the loop of [ReadProperty] dereferences with [->] and
    assigns to a [const ezAbstractProperty*]: [T] is a pointer type,
    [const ezAbstractProperty* const] and
    [const ezAbstractFunctionProperty* const]. *)
Definition GetProperties_T : CppType :=
  ty_const (ty_pointer (ty_const ty_ezAbstractProperty)).

Definition GetFunctions_T : CppType :=
  ty_const (ty_pointer (ty_const ty_ezAbstractFunctionProperty)).

(** ** The authoring description *)

Module ezVisualScriptNodeDescription.

Module Type_.

(** Modelled from the spec: the declaration of
    [ezVisualScriptNodeDescription::Type::Enum] is missing from the
    sources.  Its enumerants are the ones the lines of
    [s_TypeToUserDataContexts] name, in that order and numbered from 0,
    followed by [Count]. *)
Inductive Enum :=
  | Invalid | EntryCall | EntryCall_Coroutine | MessageHandler
  | MessageHandler_Coroutine | ReflectedFunction | InplaceCoroutine | GetOwner
  | FirstBuiltin
  | Builtin_Branch | Builtin_And | Builtin_Or | Builtin_Not | Builtin_Compare
  | Builtin_IsValid
  | Builtin_Add | Builtin_Subtract | Builtin_Multiply | Builtin_Divide
  | Builtin_ToBool | Builtin_ToByte | Builtin_ToInt | Builtin_ToInt64
  | Builtin_ToFloat | Builtin_ToDouble | Builtin_ToString | Builtin_ToVariant
  | Builtin_Variant_ConvertTo
  | Builtin_MakeArray
  | Builtin_TryGetComponentOfBaseType
  | Builtin_StartCoroutine | Builtin_StopCoroutine | Builtin_StopAllCoroutines
  | Builtin_WaitForAll | Builtin_WaitForAny | Builtin_Yield
  | LastBuiltin
  | Count.

(** The declared tags, in declaration order; [Count] is their number,
    not one of them. *)
Definition tags : list Enum :=
  [ Invalid; EntryCall; EntryCall_Coroutine; MessageHandler;
    MessageHandler_Coroutine; ReflectedFunction; InplaceCoroutine; GetOwner;
    FirstBuiltin;
    Builtin_Branch; Builtin_And; Builtin_Or; Builtin_Not; Builtin_Compare;
    Builtin_IsValid;
    Builtin_Add; Builtin_Subtract; Builtin_Multiply; Builtin_Divide;
    Builtin_ToBool; Builtin_ToByte; Builtin_ToInt; Builtin_ToInt64;
    Builtin_ToFloat; Builtin_ToDouble; Builtin_ToString; Builtin_ToVariant;
    Builtin_Variant_ConvertTo;
    Builtin_MakeArray;
    Builtin_TryGetComponentOfBaseType;
    Builtin_StartCoroutine; Builtin_StopCoroutine; Builtin_StopAllCoroutines;
    Builtin_WaitForAll; Builtin_WaitForAny; Builtin_Yield;
    LastBuiltin ].

(** The integer value of an enumerant. *)
Definition value (t : Enum) : nat :=
  match t with
  | Invalid => 0 | EntryCall => 1 | EntryCall_Coroutine => 2
  | MessageHandler => 3 | MessageHandler_Coroutine => 4
  | ReflectedFunction => 5 | InplaceCoroutine => 6 | GetOwner => 7
  | FirstBuiltin => 8
  | Builtin_Branch => 9 | Builtin_And => 10 | Builtin_Or => 11
  | Builtin_Not => 12 | Builtin_Compare => 13 | Builtin_IsValid => 14
  | Builtin_Add => 15 | Builtin_Subtract => 16 | Builtin_Multiply => 17
  | Builtin_Divide => 18
  | Builtin_ToBool => 19 | Builtin_ToByte => 20 | Builtin_ToInt => 21
  | Builtin_ToInt64 => 22 | Builtin_ToFloat => 23 | Builtin_ToDouble => 24
  | Builtin_ToString => 25 | Builtin_ToVariant => 26
  | Builtin_Variant_ConvertTo => 27
  | Builtin_MakeArray => 28
  | Builtin_TryGetComponentOfBaseType => 29
  | Builtin_StartCoroutine => 30 | Builtin_StopCoroutine => 31
  | Builtin_StopAllCoroutines => 32 | Builtin_WaitForAll => 33
  | Builtin_WaitForAny => 34 | Builtin_Yield => 35
  | LastBuiltin => 36
  | Count => 37
  end.

End Type_.

(** Modelled from the spec: the declaration of
    [ezVisualScriptNodeDescription] is missing from the sources; "node type
    tag plus optional raw fields: a target type name, a target property
    name, a comparison operator, a coroutine creation mode".  An absent
    name is the empty string. *)
Record t := {
  m_Type : Type_.Enum;
  m_sTargetTypeName : string;
  m_sTargetPropertyName : string;
  m_ComparisonOperator : ezEnum;
  m_CoroutineCreationMode : ezEnum
}.

End ezVisualScriptNodeDescription.

Module Desc := ezVisualScriptNodeDescription.

(** ** The payload records *)

Record NodeUserData_Type := {
  m_pType : option ezRTTI
}.

(** [struct NodeUserData_TypeAndProperty : public NodeUserData_Type] *)
Record NodeUserData_TypeAndProperty := {
  TypeAndProperty_base :> NodeUserData_Type;
  m_pProperty : option ezAbstractProperty
}.

Record NodeUserData_Comparison := {
  m_ComparisonOperator : ezEnum
}.

(** [struct NodeUserData_StartCoroutine : public NodeUserData_Type] *)
Record NodeUserData_StartCoroutine := {
  StartCoroutine_base :> NodeUserData_Type;
  m_CreationMode : ezEnum
}.

(** What [SetUserData<T>] can be instantiated with in this file. *)
Inductive UserData :=
  | UserData_Type (userData : NodeUserData_Type)
  | UserData_TypeAndProperty (userData : NodeUserData_TypeAndProperty)
  | UserData_Comparison (userData : NodeUserData_Comparison)
  | UserData_StartCoroutine (userData : NodeUserData_StartCoroutine).

(** ** Sizes and alignments *)

Inductive Variant := V_Type | V_TypeAndProperty | V_Comparison | V_StartCoroutine.

(** [sizeof(T)] and [EZ_ALIGNMENT_OF(T)] of the four records are what the
    compiler of the build makes them. *)
Record Layout := {
  sizeof : Variant -> N;
  EZ_ALIGNMENT_OF : Variant -> N
}.

(** The three [static_assert]s of the file; a build whose layout fails one
    of them does not compile. *)
Definition static_assert (L : Layout) : bool :=
  (sizeof L V_Type =? 8)%N
  && (sizeof L V_TypeAndProperty =? 16)%N
  && (sizeof L V_StartCoroutine =? 16)%N.

(** The layout a compiler gives a struct of scalar members: each member at
    the next offset that is a multiple of its alignment, the whole rounded up
    to the largest alignment; a base class comes first, as a member of its
    own size and alignment. *)
Inductive Platform := EZ_PLATFORM_32BIT | EZ_PLATFORM_64BIT.

Record Member := { member_size : N; member_align : N }.

Definition align_up (offset alignment : N) : N :=
  ((offset + alignment - 1) / alignment * alignment)%N.

Definition place (offset : N) (m : Member) : N :=
  (align_up offset (member_align m) + member_size m)%N.

Definition struct_ (members : list Member) : Member :=
  let alignment := fold_left (fun a m => N.max a (member_align m)) members 1%N in
  {| member_size := align_up (fold_left place members 0%N) alignment;
     member_align := alignment |}.

Definition pointer (p : Platform) : Member :=
  match p with
  | EZ_PLATFORM_32BIT => {| member_size := 4; member_align := 4 |}
  | EZ_PLATFORM_64BIT => {| member_size := 8; member_align := 8 |}
  end.

Definition ezUInt32 : Member := {| member_size := 4; member_align := 4 |}.

(** The storage of an [ezEnum], one byte as on the stream. *)
Definition ezEnum_storage : Member := {| member_size := 1; member_align := 1 |}.

(** [#if EZ_ENABLED(EZ_PLATFORM_32BIT) ezUInt32 m_uiPadding; #endif] *)
Definition m_uiPadding (p : Platform) : list Member :=
  match p with
  | EZ_PLATFORM_32BIT => [ezUInt32]
  | EZ_PLATFORM_64BIT => []
  end.

Definition members (p : Platform) (v : Variant) : list Member :=
  match v with
  | V_Type => pointer p :: m_uiPadding p
  | V_TypeAndProperty =>
      struct_ (pointer p :: m_uiPadding p) :: pointer p :: m_uiPadding p
  | V_Comparison => [ezEnum_storage]
  | V_StartCoroutine => [struct_ (pointer p :: m_uiPadding p); ezEnum_storage]
  end.

Definition struct_layout (p : Platform) : Layout :=
  {| sizeof := fun v => member_size (struct_ (members p v));
     EZ_ALIGNMENT_OF := fun v => member_align (struct_ (members p v)) |}.

(** ** The loaded node, the arena and the state of a load *)

Module ezVisualScriptGraphDescription.

(** Modelled from the spec: the declaration of
    [ezVisualScriptGraphDescription::Node] is missing from the sources; a
    node refers to its user data by "an offset/size reference into the
    Extension Arena". *)
Record Node := {
  m_UserDataByteSize : N;
  m_UserData : N
}.

End ezVisualScriptGraphDescription.

Import ezVisualScriptGraphDescription.

(** What [Deserialize] and the functions it calls read and write: the
    [ezStreamReader&], the [Node&], the cursor [ezUInt8*&] into the arena
    with the records placed in it so far, and the global log. *)
Record State := {
  inout_stream : list byte;
  ref_node : Node;
  inout_pAdditionalData : N;
  arena : gmap N UserData;
  log : list ezLogMsg
}.

Definition M (A : Type) : Type := State -> A * State.

Definition ret {A} (a : A) : M A := fun s => (a, s).

Definition bind {A B} (m : M A) (k : A -> M B) : M B :=
  fun s => let '(a, s') := m s in k a s'.

Declare Scope load_scope.
Delimit Scope load_scope with load.
Notation "x <- m ;; k" := (bind m (fun x => k))
  (at level 100, m at next level, right associativity) : load_scope.
Notation "m ;; k" := (bind m (fun _ => k))
  (at level 100, right associativity) : load_scope.
Local Open Scope load_scope.

(** [EZ_SUCCEED_OR_RETURN(m); k], for a call [m] that also writes the
    out-parameters [k] goes on with. *)
Definition EZ_SUCCEED_OR_RETURN {A} (m : M (ezResult * A)) (k : A -> M ezResult)
  : M ezResult :=
  r <- m ;;
  match fst r with
  | EZ_SUCCESS => k (snd r)
  | EZ_FAILURE => ret EZ_FAILURE
  end.

(** [inout_stream >> sName] into a fresh [ezStringBuilder]. *)
Definition read_string : M string := fun s =>
  let '(sName, rest) := ezStream.ReadString (inout_stream s) in
  (sName,
   {| inout_stream := rest; ref_node := ref_node s;
      inout_pAdditionalData := inout_pAdditionalData s;
      arena := arena s; log := log s |}).

(** [inout_stream >> value] for an [ezEnum] that holds [value]. *)
Definition read_enum (value : ezEnum) : M ezEnum := fun s =>
  let '(value', rest) := ezStream.ReadEnum value (inout_stream s) in
  (value',
   {| inout_stream := rest; ref_node := ref_node s;
      inout_pAdditionalData := inout_pAdditionalData s;
      arena := arena s; log := log s |}).

Definition ezLog_Error (format : string) (args : list string) : M unit := fun s =>
  (tt,
   {| inout_stream := inout_stream s; ref_node := ref_node s;
      inout_pAdditionalData := inout_pAdditionalData s;
      arena := arena s; log := log s ++ [Error format args] |}).

Definition variant_of (data : UserData) : Variant :=
  match data with
  | UserData_Type _ => V_Type
  | UserData_TypeAndProperty _ => V_TypeAndProperty
  | UserData_Comparison _ => V_Comparison
  | UserData_StartCoroutine _ => V_StartCoroutine
  end.

(** Modelled from the spec: [Node::SetUserData<T>] is missing from the
    sources.  Placement is "append it to the arena at the next offset
    satisfying that alignment (padding the arena as needed), and return the
    offset", which the node keeps with the size. *)
Definition SetUserData (L : Layout) (data : UserData) : M unit := fun s =>
  let T := variant_of data in
  let offset := align_up (inout_pAdditionalData s) (EZ_ALIGNMENT_OF L T) in
  (tt,
   {| inout_stream := inout_stream s;
      ref_node := {| m_UserDataByteSize := sizeof L T; m_UserData := offset |};
      inout_pAdditionalData := (offset + sizeof L T)%N;
      arena := <[offset := data]> (arena s);
      log := log s |}).

(** The record a node refers to. *)
Definition GetUserData (s : State) : option UserData :=
  arena s !! m_UserData (ref_node s).

(** What the code needs from outside the file: the layout of the build, the
    registry behind [ezRTTI::FindTypeByName], and the two enum types. *)
Record Environment := {
  layout : Layout;
  registry : gmap string ezRTTI;
  ezComparisonOperator : ezEnumType;
  ezScriptCoroutineCreationMode : ezEnumType
}.

(** Modelled from the spec: [ezRTTI::FindTypeByName] is missing from the
    sources; "a Type Registry lookup-by-name operation returning a type
    handle or not found". *)
Definition FindTypeByName (E : Environment) (sTypeName : string) : option ezRTTI :=
  registry E !! sTypeName.

(** [p->f()] on a pointer the code has checked. *)
Definition arrow {A B} (p : option A) (f : A -> B) (null : B) : B :=
  match p with
  | Some a => f a
  | None => null
  end.

(** What [Serialize] hands back: its result, the stream and the two
    out-parameters. *)
Record Serialized := {
  result : ezResult;
  stream : list byte;
  out_uiSize : N;
  out_uiAlignment : N
}.

Definition SerializeFunction : Type :=
  Desc.t -> list byte -> Serialized.
Definition DeserializeFunction : Type := M ezResult.
Definition ToStringFunction : Type := Desc.t -> string -> string.

Definition IsEmpty (s : string) : bool :=
  match s with
  | EmptyString => true
  | String _ _ => false
  end.

(** ** The payload variants *)

Module NodeUserData_Type.

Definition Serialize (L : Layout) : SerializeFunction :=
  fun nodeDesc inout_stream =>
    let inout_stream := ezStream.WriteString (Desc.m_sTargetTypeName nodeDesc) inout_stream in
    {| result := EZ_SUCCESS;
       stream := inout_stream;
       out_uiSize := sizeof L V_Type;
       out_uiAlignment := EZ_ALIGNMENT_OF L V_Type |}.

Definition ReadType (E : Environment) : M (ezResult * option ezRTTI) :=
  sTypeName <- read_string ;;
  let out_pType := FindTypeByName E sTypeName in
  match out_pType with
  | None =>
      ezLog_Error "Unknown type '{}'" [sTypeName] ;;
      ret (EZ_FAILURE, out_pType)
  | Some _ => ret (EZ_SUCCESS, out_pType)
  end.

Definition Deserialize (E : Environment) : DeserializeFunction :=
  EZ_SUCCEED_OR_RETURN (ReadType E) (fun pType =>
    let userData := {| m_pType := pType |} in
    SetUserData (layout E) (UserData_Type userData) ;;
    ret EZ_SUCCESS).

Definition ToString : ToStringFunction :=
  fun nodeDesc out_sResult =>
    if negb (IsEmpty (Desc.m_sTargetTypeName nodeDesc))
    then out_sResult +:+ Desc.m_sTargetTypeName nodeDesc
    else out_sResult.

End NodeUserData_Type.

Module NodeUserData_TypeAndProperty.

Definition Serialize (L : Layout) : SerializeFunction :=
  fun nodeDesc inout_stream =>
    let base := NodeUserData_Type.Serialize L nodeDesc inout_stream in
    match result base with
    | EZ_FAILURE => base
    | EZ_SUCCESS =>
        let inout_stream :=
          ezStream.WriteString (Desc.m_sTargetPropertyName nodeDesc) (stream base) in
        {| result := EZ_SUCCESS;
           stream := inout_stream;
           out_uiSize := sizeof L V_TypeAndProperty;
           out_uiAlignment := EZ_ALIGNMENT_OF L V_TypeAndProperty |}
    end.

(** The loop of [ReadProperty]: [out_pProp] is null before it, and the
    first element whose name is [sPropName] ends it. *)
Fixpoint ReadProperty_loop (sPropName : string) (properties : list ezAbstractProperty)
  : option ezAbstractProperty :=
  match properties with
  | [] => None
  | pProp :: properties' =>
      if String.eqb sPropName (GetPropertyName pProp)
      then Some pProp
      else ReadProperty_loop sPropName properties'
  end.

Definition ReadProperty (T : CppType) (pType : option ezRTTI)
    (properties : list ezAbstractProperty)
  : M (ezResult * option ezAbstractProperty) :=
  sPropName <- read_string ;;
  let out_pProp := ReadProperty_loop sPropName properties in
  match out_pProp with
  | None =>
      ezLog_Error "{} '{}' not found on type '{}'"
        [ if is_same T ty_ezAbstractFunctionProperty then "Function" else "Property";
          sPropName;
          arrow pType GetTypeName "" ] ;;
      ret (EZ_FAILURE, out_pProp)
  | Some _ => ret (EZ_SUCCESS, out_pProp)
  end.

Definition Deserialize (PropIsFunction : bool) (E : Environment) : DeserializeFunction :=
  EZ_SUCCEED_OR_RETURN (NodeUserData_Type.ReadType E) (fun pType =>
    EZ_SUCCEED_OR_RETURN
      (if PropIsFunction
       then ReadProperty GetFunctions_T pType (arrow pType GetFunctions [])
       else ReadProperty GetProperties_T pType (arrow pType GetProperties []))
      (fun pProperty =>
         let userData :=
           {| TypeAndProperty_base := {| m_pType := pType |};
              m_pProperty := pProperty |} in
         SetUserData (layout E) (UserData_TypeAndProperty userData) ;;
         ret EZ_SUCCESS)).

Definition ToString : ToStringFunction :=
  fun nodeDesc out_sResult =>
    let out_sResult := NodeUserData_Type.ToString nodeDesc out_sResult in
    if negb (IsEmpty (Desc.m_sTargetPropertyName nodeDesc))
    then out_sResult +:+ "." +:+ Desc.m_sTargetPropertyName nodeDesc
    else out_sResult.

End NodeUserData_TypeAndProperty.

Module NodeUserData_Comparison.

Definition Serialize (L : Layout) : SerializeFunction :=
  fun nodeDesc inout_stream =>
    let compOp := Desc.m_ComparisonOperator nodeDesc in
    let inout_stream := ezStream.WriteEnum compOp inout_stream in
    {| result := EZ_SUCCESS;
       stream := inout_stream;
       out_uiSize := sizeof L V_Comparison;
       out_uiAlignment := EZ_ALIGNMENT_OF L V_Comparison |}.

Definition Deserialize (E : Environment) : DeserializeFunction :=
  op <- read_enum (Default (ezComparisonOperator E)) ;;
  let userData := {| m_ComparisonOperator := op |} in
  SetUserData (layout E) (UserData_Comparison userData) ;;
  ret EZ_SUCCESS.

Definition ToString (E : Environment) : ToStringFunction :=
  fun nodeDesc out_sResult =>
    let sCompOp :=
      EnumerationToString (ezComparisonOperator E) (Desc.m_ComparisonOperator nodeDesc) in
    out_sResult +:+ " " +:+ sCompOp.

End NodeUserData_Comparison.

Module NodeUserData_StartCoroutine.

Definition Serialize (L : Layout) : SerializeFunction :=
  fun nodeDesc inout_stream =>
    let base := NodeUserData_Type.Serialize L nodeDesc inout_stream in
    match result base with
    | EZ_FAILURE => base
    | EZ_SUCCESS =>
        let inout_stream :=
          ezStream.WriteEnum (Desc.m_CoroutineCreationMode nodeDesc) (stream base) in
        {| result := EZ_SUCCESS;
           stream := inout_stream;
           out_uiSize := sizeof L V_StartCoroutine;
           out_uiAlignment := EZ_ALIGNMENT_OF L V_StartCoroutine |}
    end.

Definition Deserialize (E : Environment) : DeserializeFunction :=
  EZ_SUCCEED_OR_RETURN (NodeUserData_Type.ReadType E) (fun pType =>
    mode <- read_enum (Default (ezScriptCoroutineCreationMode E)) ;;
    let userData :=
      {| StartCoroutine_base := {| m_pType := pType |};
         m_CreationMode := mode |} in
    SetUserData (layout E) (UserData_StartCoroutine userData) ;;
    ret EZ_SUCCESS).

Definition ToString (E : Environment) : ToStringFunction :=
  fun nodeDesc out_sResult =>
    let out_sResult := NodeUserData_Type.ToString nodeDesc out_sResult in
    let sCreationMode :=
      EnumerationToString (ezScriptCoroutineCreationMode E)
        (Desc.m_CoroutineCreationMode nodeDesc) in
    out_sResult +:+ " " +:+ sCreationMode.

End NodeUserData_StartCoroutine.

(** ** The dispatch table *)

(** The members are function pointers, null by default. *)
Record UserDataContext := {
  m_SerializeFunc : option SerializeFunction;
  m_DeserializeFunc : option DeserializeFunction;
  m_ToStringFunc : option ToStringFunction
}.

(** [{}] *)
Definition empty_context : UserDataContext :=
  {| m_SerializeFunc := None; m_DeserializeFunc := None; m_ToStringFunc := None |}.

Section Table.

Variable E : Environment.

Definition TypeAndProperty_context : UserDataContext :=
  {| m_SerializeFunc := Some (NodeUserData_TypeAndProperty.Serialize (layout E));
     m_DeserializeFunc := Some (NodeUserData_TypeAndProperty.Deserialize true E);
     m_ToStringFunc := Some NodeUserData_TypeAndProperty.ToString |}.

Definition Comparison_context : UserDataContext :=
  {| m_SerializeFunc := Some (NodeUserData_Comparison.Serialize (layout E));
     m_DeserializeFunc := Some (NodeUserData_Comparison.Deserialize E);
     m_ToStringFunc := Some (NodeUserData_Comparison.ToString E) |}.

Definition Type_context : UserDataContext :=
  {| m_SerializeFunc := Some (NodeUserData_Type.Serialize (layout E));
     m_DeserializeFunc := Some (NodeUserData_Type.Deserialize E);
     m_ToStringFunc := Some NodeUserData_Type.ToString |}.

Definition StartCoroutine_context : UserDataContext :=
  {| m_SerializeFunc := Some (NodeUserData_StartCoroutine.Serialize (layout E));
     m_DeserializeFunc := Some (NodeUserData_StartCoroutine.Deserialize E);
     m_ToStringFunc := Some (NodeUserData_StartCoroutine.ToString E) |}.

Definition s_TypeToUserDataContexts : list UserDataContext :=
  [ empty_context;            (* Invalid *)
    empty_context;            (* EntryCall *)
    empty_context;            (* EntryCall_Coroutine *)
    empty_context;            (* MessageHandler *)
    empty_context;            (* MessageHandler_Coroutine *)
    TypeAndProperty_context;  (* ReflectedFunction *)
    TypeAndProperty_context;  (* InplaceCoroutine *)
    empty_context;            (* GetOwner *)

    empty_context;            (* FirstBuiltin *)

    empty_context;            (* Builtin_Branch *)
    empty_context;            (* Builtin_And *)
    empty_context;            (* Builtin_Or *)
    empty_context;            (* Builtin_Not *)
    Comparison_context;       (* Builtin_Compare *)
    empty_context;            (* Builtin_IsValid *)

    empty_context;            (* Builtin_Add *)
    empty_context;            (* Builtin_Subtract *)
    empty_context;            (* Builtin_Multiply *)
    empty_context;            (* Builtin_Divide *)

    empty_context;            (* Builtin_ToBool *)
    empty_context;            (* Builtin_ToByte *)
    empty_context;            (* Builtin_ToInt *)
    empty_context;            (* Builtin_ToInt64 *)
    empty_context;            (* Builtin_ToFloat *)
    empty_context;            (* Builtin_ToDouble *)
    empty_context;            (* Builtin_ToString *)
    empty_context;            (* Builtin_ToVariant *)
    empty_context;            (* Builtin_Variant_ConvertTo *)

    empty_context;            (* Builtin_MakeArray *)

    Type_context;             (* Builtin_TryGetComponentOfBaseType *)

    StartCoroutine_context;   (* Builtin_StartCoroutine *)
    empty_context;            (* Builtin_StopCoroutine *)
    empty_context;            (* Builtin_StopAllCoroutines *)
    empty_context;            (* Builtin_WaitForAll *)
    empty_context;            (* Builtin_WaitForAny *)
    empty_context;            (* Builtin_Yield *)

    empty_context             (* LastBuiltin *)
  ].

(** [static_assert(EZ_ARRAY_SIZE(s_TypeToUserDataContexts) == Type::Count)] *)
Definition static_assert_table : bool :=
  Nat.eqb (length s_TypeToUserDataContexts) (Desc.Type_.value Desc.Type_.Count).

(** [None] is the failed [EZ_ASSERT_DEBUG], "Out of bounds access". *)
Definition GetUserDataContext (nodeType : Desc.Type_.Enum) : option UserDataContext :=
  if Nat.ltb (Desc.Type_.value nodeType) (length s_TypeToUserDataContexts)
  then s_TypeToUserDataContexts !! Desc.Type_.value nodeType
  else None.

End Table.

(** The payload variant a tag carries, as the table has it. *)
Definition variant_of_tag (t : Desc.Type_.Enum) : option Variant :=
  match t with
  | Desc.Type_.ReflectedFunction | Desc.Type_.InplaceCoroutine => Some V_TypeAndProperty
  | Desc.Type_.Builtin_Compare => Some V_Comparison
  | Desc.Type_.Builtin_TryGetComponentOfBaseType => Some V_Type
  | Desc.Type_.Builtin_StartCoroutine => Some V_StartCoroutine
  | _ => None
  end.

Definition context_of_variant (E : Environment) (v : option Variant) : UserDataContext :=
  match v with
  | Some V_Type => Type_context E
  | Some V_TypeAndProperty => TypeAndProperty_context E
  | Some V_Comparison => Comparison_context E
  | Some V_StartCoroutine => StartCoroutine_context E
  | None => empty_context
  end.

(** ** Notions the properties are stated with *)

(** A state that differs from [s] in the stream alone. *)
Definition set_stream (bytes : list byte) (s : State) : State :=
  {| inout_stream := bytes; ref_node := ref_node s;
     inout_pAdditionalData := inout_pAdditionalData s;
     arena := arena s; log := log s |}.

(** The name [ReadType] or [ReadProperty] reads next, and what is left of
    the stream behind it. *)
Definition next_name (s : State) : string := fst (ezStream.ReadString (inout_stream s)).
Definition behind_name (s : State) : list byte := snd (ezStream.ReadString (inout_stream s)).

(** A name an [ezString] can hold: its byte count is an [ezUInt32]. *)
Definition valid_name (sName : string) : Prop :=
  (N.of_nat (String.length sName) < 2 ^ 32)%N.

(** The members [Deserialize<PropIsFunction>] searches. *)
Definition members_of (PropIsFunction : bool) (pType : ezRTTI) : list ezAbstractProperty :=
  if PropIsFunction then GetFunctions pType else GetProperties pType.

(** The resolved equivalent of a name of the description, in the words of
    the spec: "a Type Registry lookup-by-name operation" for the type, "exact
    name match, selecting the first match" in the list of the type for the
    member. *)
Definition resolve_type (E : Environment) (nodeDesc : Desc.t) : option ezRTTI :=
  registry E !! Desc.m_sTargetTypeName nodeDesc.

Definition resolve_member (PropIsFunction : bool) (pType : ezRTTI) (nodeDesc : Desc.t)
  : option ezAbstractProperty :=
  List.find (fun p => String.eqb (GetPropertyName p) (Desc.m_sTargetPropertyName nodeDesc))
    (members_of PropIsFunction pType).

(** [Deserialize] reads back what [Serialize] wrote for [nodeDesc], whatever
    follows it on the stream: it succeeds, leaves the stream behind the
    record, logs nothing and gives the node the record [expected]. *)
Definition round_trips (Serialize : SerializeFunction) (Deserialize : DeserializeFunction)
    (nodeDesc : Desc.t) (expected : UserData) : Prop :=
  forall (s : State) (rest : list byte),
    let out := Deserialize (set_stream (stream (Serialize nodeDesc []) ++ rest) s) in
    fst out = EZ_SUCCESS
    /\ inout_stream (snd out) = rest
    /\ log (snd out) = log s
    /\ GetUserData (snd out) = Some expected.

(** The spec's [UnresolvedType]: the failure is reported with the "Unknown
    type" diagnostic for the name read, and the load stops behind that name
    with node, arena cursor and arena as they were. *)
Definition fails_with_UnresolvedType (s : State) (out : ezResult * State) : Prop :=
  fst out = EZ_FAILURE
  /\ log (snd out) = log s ++ [Error "Unknown type '{}'" [next_name s]]
  /\ inout_stream (snd out) = behind_name s
  /\ ref_node (snd out) = ref_node s
  /\ inout_pAdditionalData (snd out) = inout_pAdditionalData s
  /\ arena (snd out) = arena s.

(** A table entry as three operations that do nothing, in the words of the
    spec: "serialize writes nothing and reports a zero-size, correctly-aligned
    record; deserialize does nothing and succeeds; describe appends
    nothing". *)
Definition no_op_operations (c : UserDataContext) : Prop :=
  exists (serialize : SerializeFunction) (deserialize : DeserializeFunction)
         (describe : ToStringFunction),
    m_SerializeFunc c = Some serialize
    /\ m_DeserializeFunc c = Some deserialize
    /\ m_ToStringFunc c = Some describe
    /\ (forall nodeDesc inout_stream,
          result (serialize nodeDesc inout_stream) = EZ_SUCCESS
          /\ stream (serialize nodeDesc inout_stream) = inout_stream
          /\ out_uiSize (serialize nodeDesc inout_stream) = 0%N)
    /\ (forall s, deserialize s = (EZ_SUCCESS, s))
    /\ (forall nodeDesc out_sResult, describe nodeDesc out_sResult = out_sResult).

(** ** A small world to run the code in *)

Module Fixture.

Definition layout64 : Layout := struct_layout EZ_PLATFORM_64BIT.

Definition ComparisonOperator : ezEnumType :=
  {| Default := x00;
     EnumerationToString := fun v =>
       match v with
       | x00 => "Equal" | x01 => "NotEqual" | x02 => "Less"
       | x03 => "LessEqual" | x04 => "Greater" | x05 => "GreaterEqual"
       | _ => ""
       end |}.

Definition CreationMode : ezEnumType :=
  {| Default := x00;
     EnumerationToString := fun v =>
       match v with
       | x00 => "StopOther" | x01 => "DontCreateNew" | x02 => "AllowOverlap"
       | _ => ""
       end |}.

Definition Bar : ezAbstractProperty := {| address := 16; GetPropertyName := "Bar" |}.
Definition Baz : ezAbstractProperty := {| address := 32; GetPropertyName := "Baz" |}.
Definition Bar' : ezAbstractProperty := {| address := 48; GetPropertyName := "Bar" |}.

Definition Foo : ezRTTI :=
  {| GetTypeName := "Foo";
     GetProperties := [Baz; Bar];
     GetFunctions := [Baz; Bar; Bar'] |}.

Definition E : Environment :=
  {| layout := layout64;
     registry := {[ "Foo"%string := Foo ]};
     ezComparisonOperator := ComparisonOperator;
     ezScriptCoroutineCreationMode := CreationMode |}.

Definition nodeDesc (sType sProperty : string) : Desc.t :=
  {| Desc.m_Type := Desc.Type_.ReflectedFunction;
     Desc.m_sTargetTypeName := sType;
     Desc.m_sTargetPropertyName := sProperty;
     Desc.m_ComparisonOperator := x04;
     Desc.m_CoroutineCreationMode := x02 |}.

(** The start of a load: an empty arena whose cursor is not aligned. *)
Definition start (bytes : list byte) : State :=
  {| inout_stream := bytes;
     ref_node := {| m_UserDataByteSize := 0; m_UserData := 0 |};
     inout_pAdditionalData := 3;
     arena := ∅;
     log := [] |}.

End Fixture.

(** ** The variants side by side *)

(** The [Serialize] and [Deserialize] functions of the file, with the record
    each [Deserialize] builds and hands to [SetUserData]. *)
Definition variants (E : Environment)
  : list (Variant * SerializeFunction * DeserializeFunction) :=
  [ (V_Type, NodeUserData_Type.Serialize (layout E), NodeUserData_Type.Deserialize E);
    (V_TypeAndProperty, NodeUserData_TypeAndProperty.Serialize (layout E),
     NodeUserData_TypeAndProperty.Deserialize true E);
    (V_TypeAndProperty, NodeUserData_TypeAndProperty.Serialize (layout E),
     NodeUserData_TypeAndProperty.Deserialize false E);
    (V_Comparison, NodeUserData_Comparison.Serialize (layout E),
     NodeUserData_Comparison.Deserialize E);
    (V_StartCoroutine, NodeUserData_StartCoroutine.Serialize (layout E),
     NodeUserData_StartCoroutine.Deserialize E) ].

(** The state after a successful [Deserialize]: the stream read up to
    [rest], and [data] placed by [SetUserData]. *)
Definition placed (L : Layout) (data : UserData) (rest : list byte) (s : State) : State :=
  snd (SetUserData L data (set_stream rest s)).

(** The state after a failed [Deserialize]: the stream read up to [rest],
    and [msg] logged. *)
Definition aborted (msg : ezLogMsg) (rest : list byte) (s : State) : State :=
  {| inout_stream := rest; ref_node := ref_node s;
     inout_pAdditionalData := inout_pAdditionalData s;
     arena := arena s; log := log s ++ [msg] |}.

(** A layout in which no record is empty and every alignment is at least
    one. *)
Definition layout_positive (L : Layout) : Prop :=
  forall v, (0 < sizeof L v)%N /\ (0 < EZ_ALIGNMENT_OF L v)%N.


(** The members of [NodeUserData_StartCoroutine] for an [ezEnum] whose
    storage type is [storage]. *)
Definition StartCoroutine_members (p : Platform) (storage : Member) : list Member :=
  [struct_ (pointer p :: m_uiPadding p); storage].

(** An unsigned integer type of [bytes] bytes, aligned to its size. *)
Definition ezUInt (bytes : N) : Member :=
  {| member_size := bytes; member_align := bytes |}.

(** A type whose member "Tick" is a property and not a function. *)
Module Fixture2.

Definition Tick : ezAbstractProperty := {| address := 64; GetPropertyName := "Tick" |}.
Definition Run : ezAbstractProperty := {| address := 80; GetPropertyName := "Run" |}.

Definition Clock : ezRTTI :=
  {| GetTypeName := "Clock";
     GetProperties := [Tick];
     GetFunctions := [Run] |}.

Definition E : Environment :=
  {| layout := Fixture.layout64;
     registry := {[ "Clock"%string := Clock ]};
     ezComparisonOperator := Fixture.ComparisonOperator;
     ezScriptCoroutineCreationMode := Fixture.CreationMode |}.

End Fixture2.

(** ** Blackboard entry flags (Core/Utils/Blackboard.h) *)

Module ezBlackboardEntryFlags.

(** [EZ_BIT] is a macro of Foundation that the sources do not include:
    [EZ_BIT(n)] is the value whose only set bit is bit [n]. *)
Definition EZ_BIT (n : N) : N := N.shiftl 1 n.

(** [using StorageType = ezUInt16] *)
Definition StorageType_bits : N := 16.

Inductive Enum :=
  | None_ | Save | OnChangeEvent
  | UserFlag0 | UserFlag1 | UserFlag2 | UserFlag3
  | UserFlag4 | UserFlag5 | UserFlag6 | UserFlag7
  | Invalid
  | Default_.

Definition value (e : Enum) : N :=
  match e with
  | None_ => 0
  | Save => EZ_BIT 0
  | OnChangeEvent => EZ_BIT 1
  | UserFlag0 => EZ_BIT 7
  | UserFlag1 => EZ_BIT 8
  | UserFlag2 => EZ_BIT 9
  | UserFlag3 => EZ_BIT 10
  | UserFlag4 => EZ_BIT 11
  | UserFlag5 => EZ_BIT 12
  | UserFlag6 => EZ_BIT 13
  | UserFlag7 => EZ_BIT 14
  | Invalid => EZ_BIT 15
  | Default_ => 0
  end.

Definition name (e : Enum) : string :=
  match e with
  | None_ => "None" | Save => "Save" | OnChangeEvent => "OnChangeEvent"
  | UserFlag0 => "UserFlag0" | UserFlag1 => "UserFlag1"
  | UserFlag2 => "UserFlag2" | UserFlag3 => "UserFlag3"
  | UserFlag4 => "UserFlag4" | UserFlag5 => "UserFlag5"
  | UserFlag6 => "UserFlag6" | UserFlag7 => "UserFlag7"
  | Invalid => "Invalid" | Default_ => "Default"
  end.

(** [struct Bits]: the bit-fields with their widths, in declaration order. *)
Definition Bits : list (string * N) :=
  [ ("Save", 1); ("OnChangeEvent", 1); ("Reserved", 5);
    ("UserFlag0", 1); ("UserFlag1", 1); ("UserFlag2", 1); ("UserFlag3", 1);
    ("UserFlag4", 1); ("UserFlag5", 1); ("UserFlag6", 1); ("UserFlag7", 1);
    ("Invalid", 1) ]%N.

(** The first bit and the width of the bit-field [field], the fields being
    allocated in declaration order from bit 0 upwards. *)
Fixpoint bit_field (field : string) (fields : list (string * N)) (first : N)
  : option (N * N) :=
  match fields with
  | [] => None
  | (f, width) :: fields' =>
      if String.eqb field f then Some (first, width)
      else bit_field field fields' (first + width)%N
  end.

(** The bits of the storage a bit-field occupies, as a mask. *)
Definition mask (first width : N) : N :=
  N.shiftl (N.ones width) first.

End ezBlackboardEntryFlags.

(** * Properties *)

(** ** The stream primitives *)

Section Stream.

Import ezStream.

Lemma to_N_byte_of_N (n : N) : Byte.to_N (byte_of_N n) = (n mod 256)%N.
Proof.
  unfold byte_of_N.
  destruct (Byte.of_N (n mod 256)) as [b|] eqn:Hb.
  - now apply Byte.to_of_N.
  - apply Byte.of_N_None_iff in Hb.
    pose proof (N.mod_upper_bound n 256). lia.
Qed.

Lemma ReadDWordValue_DWordBytes (v : N) (rest : list byte) :
  (v < 2 ^ 32)%N ->
  ReadDWordValue (DWordBytes v ++ rest) = (EZ_SUCCESS, v, rest).
Proof.
  intros Hv. unfold ReadDWordValue, DWordBytes, ReadBytes. cbn [take drop app].
  rewrite !to_N_byte_of_N. repeat f_equal.
  change (2 ^ 8)%N with 256%N. change (2 ^ 16)%N with 65536%N.
  change (2 ^ 24)%N with 16777216%N. change (2 ^ 32)%N with 4294967296%N in Hv.
  zify. Z.to_euclidean_division_equations. lia.
Qed.

Lemma length_list_byte_of_string (s : string) :
  length (list_byte_of_string s) = String.length s.
Proof.
  unfold list_byte_of_string. rewrite length_map.
  induction s as [|c s IH]; cbn; [reflexivity | now rewrite IH].
Qed.

Lemma ReadString_StringBytes (s : string) (rest : list byte) :
  valid_name s ->
  ReadString (StringBytes s ++ rest) = (s, rest).
Proof.
  intros Hs. unfold ReadString, StringBytes, GetElementCount.
  rewrite (N.mod_small _ _ Hs), <- app_assoc.
  rewrite ReadDWordValue_DWordBytes by exact Hs.
  unfold ReadBytes. rewrite Nat2N.id.
  pose proof (length_list_byte_of_string s) as Hlen.
  rewrite (take_ge (list_byte_of_string s)) by lia.
  rewrite take_app_length', drop_app_length' by (symmetry; exact Hlen).
  now rewrite string_of_list_byte_of_string.
Qed.

Lemma ReadEnum_EnumBytes (value b : byte) (rest : list byte) :
  ReadEnum value (EnumBytes b ++ rest) = (b, rest).
Proof. reflexivity. Qed.

(** A writer only ever appends. *)
Lemma WriteString_app (s : string) (w : list byte) :
  WriteString s w = w ++ StringBytes s.
Proof. reflexivity. Qed.

Lemma WriteEnum_app (v : byte) (w : list byte) :
  WriteEnum v w = w ++ EnumBytes v.
Proof. reflexivity. Qed.

End Stream.

(** ** One step of a load *)

Lemma read_string_eq (s : State) :
  read_string s = (next_name s, set_stream (behind_name s) s).
Proof.
  unfold read_string, next_name, behind_name.
  now destruct (ezStream.ReadString (inout_stream s)).
Qed.

Lemma read_enum_cons (value b : byte) (rest : list byte) (s : State) :
  inout_stream s = b :: rest ->
  read_enum value s = (b, set_stream rest s).
Proof.
  intros Hs. unfold read_enum, ezStream.ReadEnum, ezStream.ReadBytes.
  rewrite Hs. cbn. now rewrite drop_0.
Qed.

Lemma read_enum_nil (value : byte) (s : State) :
  inout_stream s = [] ->
  read_enum value s = (value, set_stream [] s).
Proof.
  intros Hs. unfold read_enum, ezStream.ReadEnum, ezStream.ReadBytes.
  now rewrite Hs.
Qed.

Lemma next_name_StringBytes (sName : string) (rest : list byte) (s : State) :
  valid_name sName ->
  next_name (set_stream (ezStream.StringBytes sName ++ rest) s) = sName
  /\ behind_name (set_stream (ezStream.StringBytes sName ++ rest) s) = rest.
Proof.
  intros Hv. unfold next_name, behind_name. cbn [inout_stream set_stream].
  now rewrite ReadString_StringBytes.
Qed.

Lemma GetUserData_SetUserData (L : Layout) (data : UserData) (s : State) :
  GetUserData (snd (SetUserData L data s)) = Some data.
Proof. unfold GetUserData, SetUserData. cbn. apply lookup_insert_eq. Qed.

Section ReadType.

Import NodeUserData_Type.

Variable E : Environment.

Lemma ReadType_resolved (s : State) (pType : ezRTTI) :
  FindTypeByName E (next_name s) = Some pType ->
  ReadType E s = ((EZ_SUCCESS, Some pType), set_stream (behind_name s) s).
Proof.
  intros H. unfold ReadType, bind. rewrite read_string_eq, H. reflexivity.
Qed.

Lemma ReadType_unresolved (s : State) :
  FindTypeByName E (next_name s) = None ->
  ReadType E s
  = ((EZ_FAILURE, None),
     {| inout_stream := behind_name s; ref_node := ref_node s;
        inout_pAdditionalData := inout_pAdditionalData s;
        arena := arena s;
        log := log s ++ [Error "Unknown type '{}'" [next_name s]] |}).
Proof.
  intros H. unfold ReadType, bind. rewrite read_string_eq, H. reflexivity.
Qed.

End ReadType.

(** ** The loop of [ReadProperty] *)

Section ReadProperty.

Import NodeUserData_TypeAndProperty.

(** The loop stops at the first element with the name sought: nothing
    before it has that name. *)
Lemma ReadProperty_loop_Some (sPropName : string) (properties : list ezAbstractProperty)
    (pProp : ezAbstractProperty) :
  ReadProperty_loop sPropName properties = Some pProp <->
  exists before after,
    properties = before ++ pProp :: after
    /\ GetPropertyName pProp = sPropName
    /\ Forall (fun q => GetPropertyName q <> sPropName) before.
Proof.
  induction properties as [|q properties IH]; cbn.
  - split; [discriminate|]. intros (before & after & H & _).
    now destruct before.
  - destruct (String.eqb_spec sPropName (GetPropertyName q)) as [Heq|Hne].
    + split.
      * intros [= <-]. exists [], properties. auto.
      * intros (before & after & H & Hn & Hb).
        destruct before as [|q' before]; cbn in H; injection H as -> ->.
        -- reflexivity.
        -- inversion Hb; subst. congruence.
    + rewrite IH. split.
      * intros (before & after & -> & Hn & Hb).
        exists (q :: before), after. repeat split; auto.
      * intros (before & after & H & Hn & Hb).
        destruct before as [|q' before]; cbn in H; injection H as -> ->.
        -- congruence.
        -- inversion Hb; subst. eauto.
Qed.

(** It leaves the null pointer exactly when no element has the name. *)
Lemma ReadProperty_loop_None (sPropName : string) (properties : list ezAbstractProperty) :
  ReadProperty_loop sPropName properties = None <->
  Forall (fun q => GetPropertyName q <> sPropName) properties.
Proof.
  induction properties as [|q properties IH]; cbn.
  - split; auto.
  - destruct (String.eqb_spec sPropName (GetPropertyName q)) as [Heq|Hne].
    + split; [discriminate|]. intros H. inversion H; subst. congruence.
    + rewrite IH. split.
      * intros H. constructor; auto.
      * intros H. now inversion H.
Qed.

(** The loop is the lookup the spec describes. *)
Lemma ReadProperty_loop_find (sPropName : string) (properties : list ezAbstractProperty) :
  ReadProperty_loop sPropName properties
  = List.find (fun p => String.eqb (GetPropertyName p) sPropName) properties.
Proof.
  induction properties as [|q properties IH]; cbn; [reflexivity|].
  rewrite IH, (String.eqb_sym sPropName). reflexivity.
Qed.

End ReadProperty.

(** ** Failure on an unresolved type *)

(** C2.  For every variant that reads a type name (Type, TypeAndProperty for
    properties and for functions, StartCoroutine): when the name read from
    the stream is not registered, [Deserialize] fails with the "Unknown type"
    diagnostic for that name, stops right behind the name, and leaves the
    node, the arena and its cursor as they were. *)
Theorem C2_unresolved_type_aborts (E : Environment) (s : State) :
  FindTypeByName E (next_name s) = None ->
  fails_with_UnresolvedType s (NodeUserData_Type.Deserialize E s)
  /\ (forall PropIsFunction : bool,
        fails_with_UnresolvedType s
          (NodeUserData_TypeAndProperty.Deserialize PropIsFunction E s))
  /\ fails_with_UnresolvedType s (NodeUserData_StartCoroutine.Deserialize E s).
Proof.
  intros H. pose proof (ReadType_unresolved E s H) as HR.
  unfold NodeUserData_Type.Deserialize, NodeUserData_TypeAndProperty.Deserialize,
    NodeUserData_StartCoroutine.Deserialize, EZ_SUCCEED_OR_RETURN, bind.
  rewrite HR. cbn.
  unfold fails_with_UnresolvedType. cbn. auto 10.
Qed.

Lemma C2_unresolved_type_aborts_witness :
  let s := Fixture.start
             (stream (NodeUserData_TypeAndProperty.Serialize Fixture.layout64
                        (Fixture.nodeDesc "Nonexistent" "Bar") [])) in
  FindTypeByName Fixture.E (next_name s) = None
  /\ fails_with_UnresolvedType s (NodeUserData_TypeAndProperty.Deserialize true Fixture.E s).
Proof.
  intros s.
  assert (H : FindTypeByName Fixture.E (next_name s) = None) by (vm_compute; reflexivity).
  split; [exact H|].
  exact (proj1 (proj2 (C2_unresolved_type_aborts Fixture.E s H)) true).
Defined.

(** ** Member resolution *)

(** [T] is a pointer type for both lists, never the class
    [ezAbstractFunctionProperty] itself. *)
Lemma is_same_pointer (t : CppType) :
  is_same (ty_pointer t) ty_ezAbstractFunctionProperty = false
  /\ is_same (ty_const (ty_pointer t)) ty_ezAbstractFunctionProperty = false.
Proof. split; reflexivity. Qed.

(** When the type resolves and none of its members has the name read next,
    [Deserialize] fails behind that name with the "not found on type"
    diagnostic, and node, arena and cursor stay as they were.  The first
    argument of the diagnostic is "Property" whichever list was searched. *)
Lemma TypeAndProperty_unresolved_member (E : Environment) (PropIsFunction : bool)
    (s : State) (pType : ezRTTI) :
  FindTypeByName E (next_name s) = Some pType ->
  let s1 := set_stream (behind_name s) s in
  NodeUserData_TypeAndProperty.ReadProperty_loop (next_name s1)
    (members_of PropIsFunction pType) = None ->
  NodeUserData_TypeAndProperty.Deserialize PropIsFunction E s
  = (EZ_FAILURE,
     {| inout_stream := behind_name s1; ref_node := ref_node s;
        inout_pAdditionalData := inout_pAdditionalData s;
        arena := arena s;
        log := log s ++ [Error "{} '{}' not found on type '{}'"
                           ["Property"; next_name s1; GetTypeName pType]] |}).
Proof.
  intros Hty s1 Hnone.
  unfold NodeUserData_TypeAndProperty.Deserialize, EZ_SUCCEED_OR_RETURN, bind.
  rewrite (ReadType_resolved E s pType Hty). cbn [ret fst snd arrow].
  fold s1.
  destruct PropIsFunction; cbn [members_of] in Hnone;
    unfold NodeUserData_TypeAndProperty.ReadProperty, bind;
    rewrite read_string_eq, Hnone; reflexivity.
Qed.

(** When a member has the name, the record gets the first such member. *)
Lemma TypeAndProperty_resolved_member (E : Environment) (PropIsFunction : bool)
    (s : State) (pType : ezRTTI) (pProp : ezAbstractProperty) :
  FindTypeByName E (next_name s) = Some pType ->
  let s1 := set_stream (behind_name s) s in
  NodeUserData_TypeAndProperty.ReadProperty_loop (next_name s1)
    (members_of PropIsFunction pType) = Some pProp ->
  let out := NodeUserData_TypeAndProperty.Deserialize PropIsFunction E s in
  fst out = EZ_SUCCESS
  /\ inout_stream (snd out) = behind_name s1
  /\ log (snd out) = log s
  /\ GetUserData (snd out)
     = Some (UserData_TypeAndProperty
               {| TypeAndProperty_base := {| m_pType := Some pType |};
                  m_pProperty := Some pProp |}).
Proof.
  intros Hty s1 Hsome out. subst out.
  unfold NodeUserData_TypeAndProperty.Deserialize, EZ_SUCCEED_OR_RETURN, bind.
  rewrite (ReadType_resolved E s pType Hty). cbn [ret fst snd arrow].
  fold s1.
  destruct PropIsFunction; cbn [members_of] in Hsome;
    unfold NodeUserData_TypeAndProperty.ReadProperty, bind;
    rewrite read_string_eq, Hsome; cbn;
    unfold GetUserData; cbn; rewrite lookup_insert_eq; auto.
Qed.

(** C3.  The stream names the registered type "Foo" and the member
    "DoesNotExist", which is neither a function nor a property of "Foo".
    [Deserialize<true>], which searches the functions, fails, and the
    diagnostic it logs says "Property"; it is the very outcome of
    [Deserialize<false>], which searches the properties.  The claim has the
    error tell which of the two was sought. *)
Theorem C3_function_reported_as_property :
  let s := Fixture.start
             (stream (NodeUserData_TypeAndProperty.Serialize Fixture.layout64
                        (Fixture.nodeDesc "Foo" "DoesNotExist") [])) in
  let sought_function := NodeUserData_TypeAndProperty.Deserialize true Fixture.E s in
  let sought_property := NodeUserData_TypeAndProperty.Deserialize false Fixture.E s in
  fst sought_function = EZ_FAILURE
  /\ log (snd sought_function)
     = [Error "{} '{}' not found on type '{}'" ["Property"; "DoesNotExist"; "Foo"]]
  /\ sought_function = sought_property.
Proof.
  intros s sought_function sought_property.
  assert (Hty : FindTypeByName Fixture.E (next_name s) = Some Fixture.Foo)
    by (vm_compute; reflexivity).
  subst sought_function sought_property.
  rewrite (TypeAndProperty_unresolved_member Fixture.E true s Fixture.Foo Hty)
    by (vm_compute; reflexivity).
  rewrite (TypeAndProperty_unresolved_member Fixture.E false s Fixture.Foo Hty)
    by (vm_compute; reflexivity).
  split; [reflexivity|]. split; [vm_compute; reflexivity | reflexivity].
Qed.

(** ** Round trip *)

Section RoundTrip.

Variable E : Environment.
Variable nodeDesc : Desc.t.

Lemma round_trips_Type (pType : ezRTTI) :
  valid_name (Desc.m_sTargetTypeName nodeDesc) ->
  resolve_type E nodeDesc = Some pType ->
  round_trips (NodeUserData_Type.Serialize (layout E)) (NodeUserData_Type.Deserialize E)
    nodeDesc (UserData_Type {| m_pType := Some pType |}).
Proof.
  intros Hv Hty s rest out. subst out.
  unfold NodeUserData_Type.Serialize. cbn [stream].
  rewrite WriteString_app, app_nil_l.
  destruct (next_name_StringBytes (Desc.m_sTargetTypeName nodeDesc) rest s Hv) as [Hn Hb].
  unfold NodeUserData_Type.Deserialize, EZ_SUCCEED_OR_RETURN, bind.
  rewrite (ReadType_resolved E _ pType) by (rewrite Hn; exact Hty).
  rewrite Hb. cbn. unfold GetUserData. cbn.
  rewrite lookup_insert_eq. auto.
Qed.

Lemma round_trips_TypeAndProperty (PropIsFunction : bool) (pType : ezRTTI)
    (pProp : ezAbstractProperty) :
  valid_name (Desc.m_sTargetTypeName nodeDesc) ->
  valid_name (Desc.m_sTargetPropertyName nodeDesc) ->
  resolve_type E nodeDesc = Some pType ->
  resolve_member PropIsFunction pType nodeDesc = Some pProp ->
  round_trips (NodeUserData_TypeAndProperty.Serialize (layout E))
    (NodeUserData_TypeAndProperty.Deserialize PropIsFunction E)
    nodeDesc
    (UserData_TypeAndProperty
       {| TypeAndProperty_base := {| m_pType := Some pType |};
          m_pProperty := Some pProp |}).
Proof.
  intros Hv Hvp Hty Hp s rest out. subst out.
  unfold NodeUserData_TypeAndProperty.Serialize, NodeUserData_Type.Serialize.
  cbn [stream result].
  rewrite !WriteString_app, app_nil_l, <- app_assoc.
  set (sType := Desc.m_sTargetTypeName nodeDesc) in *.
  set (sProperty := Desc.m_sTargetPropertyName nodeDesc) in *.
  set (s0 := set_stream (ezStream.StringBytes sType ++ ezStream.StringBytes sProperty ++ rest) s).
  destruct (next_name_StringBytes sType (ezStream.StringBytes sProperty ++ rest) s Hv)
    as [Hn Hb].
  destruct (next_name_StringBytes sProperty rest s0 Hvp) as [Hn' Hb'].
  fold s0 in Hn, Hb.
  unfold resolve_member in Hp. rewrite <- ReadProperty_loop_find in Hp.
  pose proof (TypeAndProperty_resolved_member E PropIsFunction s0 pType pProp) as H.
  cbn zeta in H. rewrite Hn, Hb, Hn', Hb' in H.
  exact (H Hty Hp).
Qed.

Lemma round_trips_Comparison :
  round_trips (NodeUserData_Comparison.Serialize (layout E))
    (NodeUserData_Comparison.Deserialize E)
    nodeDesc
    (UserData_Comparison {| m_ComparisonOperator := Desc.m_ComparisonOperator nodeDesc |}).
Proof.
  intros s rest out. subst out.
  unfold NodeUserData_Comparison.Serialize. cbn [stream].
  rewrite WriteEnum_app, app_nil_l.
  unfold NodeUserData_Comparison.Deserialize, bind.
  rewrite (read_enum_cons _ (Desc.m_ComparisonOperator nodeDesc) rest) by reflexivity.
  cbn. unfold GetUserData. cbn. rewrite lookup_insert_eq. auto.
Qed.

Lemma round_trips_StartCoroutine (pType : ezRTTI) :
  valid_name (Desc.m_sTargetTypeName nodeDesc) ->
  resolve_type E nodeDesc = Some pType ->
  round_trips (NodeUserData_StartCoroutine.Serialize (layout E))
    (NodeUserData_StartCoroutine.Deserialize E)
    nodeDesc
    (UserData_StartCoroutine
       {| StartCoroutine_base := {| m_pType := Some pType |};
          m_CreationMode := Desc.m_CoroutineCreationMode nodeDesc |}).
Proof.
  intros Hv Hty s rest out. subst out.
  unfold NodeUserData_StartCoroutine.Serialize, NodeUserData_Type.Serialize.
  cbn [stream result].
  rewrite WriteEnum_app, WriteString_app, app_nil_l, <- app_assoc.
  destruct (next_name_StringBytes (Desc.m_sTargetTypeName nodeDesc)
              (ezStream.EnumBytes (Desc.m_CoroutineCreationMode nodeDesc) ++ rest) s Hv)
    as [Hn Hb].
  unfold NodeUserData_StartCoroutine.Deserialize, EZ_SUCCEED_OR_RETURN, bind.
  rewrite (ReadType_resolved E _ pType) by (rewrite Hn; exact Hty).
  rewrite Hb. cbn [ret fst snd].
  rewrite (read_enum_cons _ (Desc.m_CoroutineCreationMode nodeDesc) rest) by reflexivity.
  cbn. unfold GetUserData. cbn. rewrite lookup_insert_eq. auto.
Qed.

End RoundTrip.

(** C1.  For every payload variant (Type, TypeAndProperty for properties and
    for functions, Comparison, StartCoroutine) and every description whose
    names an [ezString] can hold: when the registry resolves the names the
    variant refers to, deserializing what [Serialize] wrote succeeds, consumes
    exactly those bytes, logs nothing and gives the node the record whose
    fields are the resolved equivalents of the description's: the type
    registered under the type name, the first member of that type with the
    property name, the comparison operator and the creation mode as they
    are. *)
Theorem C1_round_trip (E : Environment) (nodeDesc : Desc.t) :
  (forall pType,
      valid_name (Desc.m_sTargetTypeName nodeDesc) ->
      resolve_type E nodeDesc = Some pType ->
      round_trips (NodeUserData_Type.Serialize (layout E))
        (NodeUserData_Type.Deserialize E)
        nodeDesc (UserData_Type {| m_pType := Some pType |}))
  /\ (forall PropIsFunction pType pProp,
        valid_name (Desc.m_sTargetTypeName nodeDesc) ->
        valid_name (Desc.m_sTargetPropertyName nodeDesc) ->
        resolve_type E nodeDesc = Some pType ->
        resolve_member PropIsFunction pType nodeDesc = Some pProp ->
        round_trips (NodeUserData_TypeAndProperty.Serialize (layout E))
          (NodeUserData_TypeAndProperty.Deserialize PropIsFunction E)
          nodeDesc
          (UserData_TypeAndProperty
             {| TypeAndProperty_base := {| m_pType := Some pType |};
                m_pProperty := Some pProp |}))
  /\ round_trips (NodeUserData_Comparison.Serialize (layout E))
       (NodeUserData_Comparison.Deserialize E)
       nodeDesc
       (UserData_Comparison
          {| m_ComparisonOperator := Desc.m_ComparisonOperator nodeDesc |})
  /\ (forall pType,
        valid_name (Desc.m_sTargetTypeName nodeDesc) ->
        resolve_type E nodeDesc = Some pType ->
        round_trips (NodeUserData_StartCoroutine.Serialize (layout E))
          (NodeUserData_StartCoroutine.Deserialize E)
          nodeDesc
          (UserData_StartCoroutine
             {| StartCoroutine_base := {| m_pType := Some pType |};
                m_CreationMode := Desc.m_CoroutineCreationMode nodeDesc |})).
Proof.
  split; [|split; [|split]].
  - intros pType. apply round_trips_Type.
  - intros PropIsFunction pType pProp. apply round_trips_TypeAndProperty.
  - apply round_trips_Comparison.
  - intros pType. apply round_trips_StartCoroutine.
Qed.

Lemma C1_round_trip_witness :
  let nodeDesc := Fixture.nodeDesc "Foo" "Bar" in
  round_trips (NodeUserData_Type.Serialize Fixture.layout64)
    (NodeUserData_Type.Deserialize Fixture.E)
    nodeDesc (UserData_Type {| m_pType := Some Fixture.Foo |})
  /\ round_trips (NodeUserData_TypeAndProperty.Serialize Fixture.layout64)
       (NodeUserData_TypeAndProperty.Deserialize true Fixture.E)
       nodeDesc
       (UserData_TypeAndProperty
          {| TypeAndProperty_base := {| m_pType := Some Fixture.Foo |};
             m_pProperty := Some Fixture.Bar |})
  /\ round_trips (NodeUserData_StartCoroutine.Serialize Fixture.layout64)
       (NodeUserData_StartCoroutine.Deserialize Fixture.E)
       nodeDesc
       (UserData_StartCoroutine
          {| StartCoroutine_base := {| m_pType := Some Fixture.Foo |};
             m_CreationMode := x02 |}).
Proof.
  intros nodeDesc.
  destruct (C1_round_trip Fixture.E nodeDesc) as (HT & HP & _ & HS).
  assert (Hv : valid_name (Desc.m_sTargetTypeName nodeDesc)) by (vm_compute; reflexivity).
  assert (Hvp : valid_name (Desc.m_sTargetPropertyName nodeDesc)) by (vm_compute; reflexivity).
  assert (Hty : resolve_type Fixture.E nodeDesc = Some Fixture.Foo) by (vm_compute; reflexivity).
  assert (Hp : resolve_member true Fixture.Foo nodeDesc = Some Fixture.Bar)
    by (vm_compute; reflexivity).
  split; [exact (HT Fixture.Foo Hv Hty)|].
  split; [exact (HP true Fixture.Foo Fixture.Bar Hv Hvp Hty Hp)|].
  exact (HS Fixture.Foo Hv Hty).
Defined.

(** ** The dispatch table *)

(** C4.  The table has as many entries as there are declared tags, which is
    what the [static_assert] on its size checks when the file is compiled;
    the tags are numbered 0, 1, 2, ... without a gap up to the length of the
    table, so each indexes an entry of its own; [GetUserDataContext] finds,
    for every declared tag, the operations of the variant that tag carries;
    and [Count], which is no tag, is out of bounds. *)
Theorem C4_dispatch_table_complete (E : Environment) :
  static_assert_table E = true
  /\ length (s_TypeToUserDataContexts E) = length Desc.Type_.tags
  /\ map Desc.Type_.value Desc.Type_.tags = seq 0 (length (s_TypeToUserDataContexts E))
  /\ Forall (fun t => GetUserDataContext E t
                      = Some (context_of_variant E (variant_of_tag t)))
       Desc.Type_.tags
  /\ GetUserDataContext E Desc.Type_.Count = None.
Proof.
  split; [reflexivity|]. split; [reflexivity|]. split; [reflexivity|].
  split; [|reflexivity].
  unfold Desc.Type_.tags. repeat (constructor; [reflexivity|]). constructor.
Qed.

(** Every enumerant is [Count] or one of the declared tags. *)
Lemma tags_all (t : Desc.Type_.Enum) :
  t = Desc.Type_.Count \/ In t Desc.Type_.tags.
Proof. destruct t; cbn; auto 40. Qed.

(** C5, as stated, fails: the entry of the tag [Invalid], which carries no
    payload, holds no operation at all, its three function pointers are
    null. *)
Lemma C5_no_op_operations_counterexample :
  ~ exists c, GetUserDataContext Fixture.E Desc.Type_.Invalid = Some c
              /\ no_op_operations c.
Proof.
  intros (c & Hc & serialize & deserialize & describe & Hs & _).
  cbv [GetUserDataContext] in Hc. cbn in Hc. injection Hc as <-.
  discriminate Hs.
Qed.

(** C5, amended.  For every declared tag that carries no payload variant the
    entry of the table is empty: its serialize, deserialize and describe
    function pointers are all null, so the table has no operation for the
    tag that could write to the stream, report a size, touch the arena or
    append to the label. *)
Theorem C5_no_payload_entry_empty (E : Environment) (t : Desc.Type_.Enum) :
  In t Desc.Type_.tags ->
  variant_of_tag t = None ->
  exists c, GetUserDataContext E t = Some c
            /\ m_SerializeFunc c = None
            /\ m_DeserializeFunc c = None
            /\ m_ToStringFunc c = None.
Proof.
  intros Hin Hv. exists empty_context.
  split; [|repeat split].
  destruct t; try discriminate Hv; try reflexivity.
  cbn in Hin. repeat (destruct Hin as [Hin|Hin]; [discriminate Hin|]). destruct Hin.
Qed.

Lemma C5_no_payload_entry_empty_witness :
  exists c, GetUserDataContext Fixture.E Desc.Type_.Builtin_Branch = Some c
            /\ m_SerializeFunc c = None
            /\ m_DeserializeFunc c = None
            /\ m_ToStringFunc c = None.
Proof.
  apply (C5_no_payload_entry_empty Fixture.E Desc.Type_.Builtin_Branch).
  - cbn. auto 20.
  - reflexivity.
Defined.

(** ** Serialize *)

(** C9.  [Serialize] of every variant succeeds for every description and
    every stream, and all it does to the stream is append: what was written
    before stays in front.  Its arguments and its result are all it reads
    and writes. *)
Theorem C9_serialize_always_succeeds (L : Layout) (nodeDesc : Desc.t)
    (inout_stream : list byte) :
  Forall (fun Serialize : SerializeFunction =>
            result (Serialize nodeDesc inout_stream) = EZ_SUCCESS
            /\ exists written,
                 stream (Serialize nodeDesc inout_stream) = inout_stream ++ written)
    [ NodeUserData_Type.Serialize L;
      NodeUserData_TypeAndProperty.Serialize L;
      NodeUserData_Comparison.Serialize L;
      NodeUserData_StartCoroutine.Serialize L ].
Proof.
  unfold NodeUserData_TypeAndProperty.Serialize, NodeUserData_StartCoroutine.Serialize,
    NodeUserData_Comparison.Serialize, NodeUserData_Type.Serialize.
  repeat constructor; cbn [result stream];
    rewrite ?WriteString_app, ?WriteEnum_app, <- ?app_assoc; eexists; reflexivity.
Qed.

(** C7.  The stream layouts are additive: what [Serialize] of
    TypeAndProperty leaves on the stream is what [Serialize] of Type leaves
    there followed by the property name, and what [Serialize] of
    StartCoroutine leaves is what [Serialize] of Type leaves followed by the
    creation mode. *)
Theorem C7_stream_layout_additive (L : Layout) (nodeDesc : Desc.t)
    (inout_stream : list byte) :
  stream (NodeUserData_TypeAndProperty.Serialize L nodeDesc inout_stream)
  = stream (NodeUserData_Type.Serialize L nodeDesc inout_stream)
    ++ ezStream.StringBytes (Desc.m_sTargetPropertyName nodeDesc)
  /\ stream (NodeUserData_StartCoroutine.Serialize L nodeDesc inout_stream)
     = stream (NodeUserData_Type.Serialize L nodeDesc inout_stream)
       ++ ezStream.EnumBytes (Desc.m_CoroutineCreationMode nodeDesc)
  /\ stream (NodeUserData_Type.Serialize L nodeDesc inout_stream)
     = inout_stream ++ ezStream.StringBytes (Desc.m_sTargetTypeName nodeDesc).
Proof. repeat split. Qed.

(** C6.  [Serialize] of each variant reports [sizeof] and [EZ_ALIGNMENT_OF]
    of the variant's record in the layout of the build, whatever the
    description and the stream are.  With the records laid out from the
    members they declare, Type is 8 bytes and TypeAndProperty 16 on a 32-bit
    platform as on a 64-bit one, and StartCoroutine is 16 bytes on a 64-bit
    platform.  On a 32-bit platform [NodeUserData_StartCoroutine], which
    unlike the other two declares no [m_uiPadding], is 12 bytes: that is the
    size its [Serialize] reports there, and the [static_assert] that it is 16
    fails.  The claim has 16 on both platforms. *)
Theorem C6_StartCoroutine_is_12_bytes_on_32bit (nodeDesc : Desc.t)
    (inout_stream : list byte) :
  let report (L : Layout) (Serialize : Layout -> SerializeFunction) :=
    (out_uiSize (Serialize L nodeDesc inout_stream),
     out_uiAlignment (Serialize L nodeDesc inout_stream)) in
  (forall L,
      report L NodeUserData_Type.Serialize
      = (sizeof L V_Type, EZ_ALIGNMENT_OF L V_Type)
      /\ report L NodeUserData_TypeAndProperty.Serialize
         = (sizeof L V_TypeAndProperty, EZ_ALIGNMENT_OF L V_TypeAndProperty)
      /\ report L NodeUserData_Comparison.Serialize
         = (sizeof L V_Comparison, EZ_ALIGNMENT_OF L V_Comparison)
      /\ report L NodeUserData_StartCoroutine.Serialize
         = (sizeof L V_StartCoroutine, EZ_ALIGNMENT_OF L V_StartCoroutine))
  /\ (forall p,
        report (struct_layout p) NodeUserData_Type.Serialize
        = (8%N, member_align (pointer p))
        /\ report (struct_layout p) NodeUserData_TypeAndProperty.Serialize
           = (16%N, member_align (pointer p)))
  /\ report (struct_layout EZ_PLATFORM_64BIT) NodeUserData_StartCoroutine.Serialize
     = (16%N, 8%N)
  /\ report (struct_layout EZ_PLATFORM_32BIT) NodeUserData_StartCoroutine.Serialize
     = (12%N, 4%N)
  /\ static_assert (struct_layout EZ_PLATFORM_64BIT) = true
  /\ static_assert (struct_layout EZ_PLATFORM_32BIT) = false.
Proof.
  cbn zeta. split; [|split].
  - intros L. repeat split.
  - intros p. destruct p; split; reflexivity.
  - repeat split.
Qed.

(** The reported size is not the number of bytes written: the name "Foo"
    takes seven bytes on the stream, the record eight in memory. *)
Lemma reported_size_is_not_byte_count :
  let written := NodeUserData_Type.Serialize Fixture.layout64 (Fixture.nodeDesc "Foo" "") [] in
  length (stream written) = 7 /\ out_uiSize written = 8%N.
Proof. split; reflexivity. Qed.

(** The two records with [m_uiPadding] have their size on either platform,
    by the members they declare. *)
Lemma padded_records_size (p : Platform) :
  sizeof (struct_layout p) V_Type = 8%N
  /\ sizeof (struct_layout p) V_TypeAndProperty = 16%N.
Proof. destruct p; split; reflexivity. Qed.

(** [NodeUserData_StartCoroutine] declares no padding.  Next to an 8-byte
    pointer its size is 16; next to a 4-byte pointer and its padding, with a
    one-byte enum, the members make 12, and the third [static_assert] rejects
    that build. *)
Lemma StartCoroutine_size :
  sizeof (struct_layout EZ_PLATFORM_64BIT) V_StartCoroutine = 16%N
  /\ sizeof (struct_layout EZ_PLATFORM_32BIT) V_StartCoroutine = 12%N
  /\ static_assert (struct_layout EZ_PLATFORM_64BIT) = true
  /\ static_assert (struct_layout EZ_PLATFORM_32BIT) = false.
Proof. repeat split. Qed.

(** ** Describe *)

(** The label of the Type variant is the type name, appended; an empty name
    appends nothing. *)
Lemma Type_ToString_append (nodeDesc : Desc.t) (out_sResult : string) :
  NodeUserData_Type.ToString nodeDesc out_sResult
  = out_sResult +:+ Desc.m_sTargetTypeName nodeDesc.
Proof.
  unfold NodeUserData_Type.ToString.
  destruct (Desc.m_sTargetTypeName nodeDesc); cbn; [|reflexivity].
  induction out_sResult as [|c r IH]; [reflexivity|].
  change (String c r = String c (r +:+ "")). now f_equal.
Qed.

(** C8.  [ToString] is a function of the description and the label so far:
    it cannot fail and changes nothing else.  With type "Foo" and property
    "Bar" the label of TypeAndProperty is "Foo.Bar"; in general it is the
    type name, then a dot and the property name unless that name is empty,
    and an empty type name adds nothing.  The label of Comparison is a
    space and the display name of the operator.  The label of StartCoroutine
    is the type name, then a space and the display name of the creation
    mode. *)
Theorem C8_describe (E : Environment) (nodeDesc : Desc.t) (out_sResult : string) :
  (forall tag op mode,
      NodeUserData_TypeAndProperty.ToString
        {| Desc.m_Type := tag; Desc.m_sTargetTypeName := "Foo";
           Desc.m_sTargetPropertyName := "Bar";
           Desc.m_ComparisonOperator := op; Desc.m_CoroutineCreationMode := mode |}
        "" = "Foo.Bar")
  /\ NodeUserData_Type.ToString nodeDesc out_sResult
     = out_sResult +:+ Desc.m_sTargetTypeName nodeDesc
  /\ NodeUserData_TypeAndProperty.ToString nodeDesc out_sResult
     = (if IsEmpty (Desc.m_sTargetPropertyName nodeDesc)
        then out_sResult +:+ Desc.m_sTargetTypeName nodeDesc
        else (out_sResult +:+ Desc.m_sTargetTypeName nodeDesc)
             +:+ "." +:+ Desc.m_sTargetPropertyName nodeDesc)
  /\ NodeUserData_Comparison.ToString E nodeDesc out_sResult
     = out_sResult +:+ " "
       +:+ EnumerationToString (ezComparisonOperator E) (Desc.m_ComparisonOperator nodeDesc)
  /\ NodeUserData_StartCoroutine.ToString E nodeDesc out_sResult
     = (out_sResult +:+ Desc.m_sTargetTypeName nodeDesc) +:+ " "
       +:+ EnumerationToString (ezScriptCoroutineCreationMode E)
             (Desc.m_CoroutineCreationMode nodeDesc)
  /\ (forall tag sProperty op mode,
        NodeUserData_Type.ToString
          {| Desc.m_Type := tag; Desc.m_sTargetTypeName := "";
             Desc.m_sTargetPropertyName := sProperty;
             Desc.m_ComparisonOperator := op; Desc.m_CoroutineCreationMode := mode |}
          out_sResult = out_sResult).
Proof.
  split; [reflexivity|]. split; [apply Type_ToString_append|].
  split.
  { unfold NodeUserData_TypeAndProperty.ToString. rewrite Type_ToString_append.
    now destruct (Desc.m_sTargetPropertyName nodeDesc). }
  split; [reflexivity|]. split.
  { unfold NodeUserData_StartCoroutine.ToString. now rewrite Type_ToString_append. }
  reflexivity.
Qed.

(** ** Scalars are read as they come *)

(** C10.  [Deserialize] of Comparison succeeds on every stream and logs
    nothing; the byte at the front of the stream, whichever of the 256 it
    is, becomes the operator of the record, and on an exhausted stream the
    operator keeps its default.  [Deserialize] of StartCoroutine succeeds
    whenever the type name resolves, and the byte behind the name, whichever
    it is, becomes the creation mode. *)
Theorem C10_scalars_not_validated (E : Environment) (s : State) :
  fst (NodeUserData_Comparison.Deserialize E s) = EZ_SUCCESS
  /\ log (snd (NodeUserData_Comparison.Deserialize E s)) = log s
  /\ (forall b rest,
        inout_stream s = b :: rest ->
        GetUserData (snd (NodeUserData_Comparison.Deserialize E s))
        = Some (UserData_Comparison {| m_ComparisonOperator := b |}))
  /\ (inout_stream s = [] ->
      GetUserData (snd (NodeUserData_Comparison.Deserialize E s))
      = Some (UserData_Comparison
                {| m_ComparisonOperator := Default (ezComparisonOperator E) |}))
  /\ (forall pType,
        FindTypeByName E (next_name s) = Some pType ->
        fst (NodeUserData_StartCoroutine.Deserialize E s) = EZ_SUCCESS
        /\ forall b rest,
             behind_name s = b :: rest ->
             GetUserData (snd (NodeUserData_StartCoroutine.Deserialize E s))
             = Some (UserData_StartCoroutine
                       {| StartCoroutine_base := {| m_pType := Some pType |};
                          m_CreationMode := b |})).
Proof.
  split; [|split; [|split; [|split]]].
  - unfold NodeUserData_Comparison.Deserialize, bind.
    destruct (read_enum _ s). reflexivity.
  - unfold NodeUserData_Comparison.Deserialize, bind, read_enum.
    destruct (ezStream.ReadEnum _ _). reflexivity.
  - intros b rest Hs. unfold NodeUserData_Comparison.Deserialize, bind.
    rewrite (read_enum_cons _ b rest s Hs). apply GetUserData_SetUserData.
  - intros Hs. unfold NodeUserData_Comparison.Deserialize, bind.
    rewrite (read_enum_nil _ s Hs). apply GetUserData_SetUserData.
  - intros pType Hty.
    unfold NodeUserData_StartCoroutine.Deserialize, EZ_SUCCEED_OR_RETURN, bind.
    rewrite (ReadType_resolved E s pType Hty). cbn [ret fst snd].
    split.
    + destruct (read_enum _ _). reflexivity.
    + intros b rest Hb.
      rewrite (read_enum_cons _ b rest (set_stream (behind_name s) s) Hb).
      apply GetUserData_SetUserData.
Qed.

Lemma C10_scalars_not_validated_witness :
  let s := Fixture.start (ezStream.StringBytes "Foo" ++ [xff]) in
  GetUserData (snd (NodeUserData_Comparison.Deserialize Fixture.E (Fixture.start [xff])))
  = Some (UserData_Comparison {| m_ComparisonOperator := xff |})
  /\ GetUserData (snd (NodeUserData_Comparison.Deserialize Fixture.E (Fixture.start [])))
     = Some (UserData_Comparison {| m_ComparisonOperator := x00 |})
  /\ fst (NodeUserData_StartCoroutine.Deserialize Fixture.E s) = EZ_SUCCESS
  /\ GetUserData (snd (NodeUserData_StartCoroutine.Deserialize Fixture.E s))
     = Some (UserData_StartCoroutine
               {| StartCoroutine_base := {| m_pType := Some Fixture.Foo |};
                  m_CreationMode := xff |}).
Proof.
  intros s.
  destruct (C10_scalars_not_validated Fixture.E (Fixture.start [xff]))
    as (_ & _ & Hcons & _).
  destruct (C10_scalars_not_validated Fixture.E (Fixture.start []))
    as (_ & _ & _ & Hnil & _).
  destruct (C10_scalars_not_validated Fixture.E s) as (_ & _ & _ & _ & Hsc).
  assert (Hty : FindTypeByName Fixture.E (next_name s) = Some Fixture.Foo)
    by (vm_compute; reflexivity).
  destruct (Hsc Fixture.Foo Hty) as [Hok Hmode].
  split; [exact (Hcons xff [] eq_refl)|].
  split; [exact (Hnil eq_refl)|].
  split; [exact Hok|].
  apply (Hmode xff []). vm_compute. reflexivity.
Defined.

(** * Further properties of the code *)

(** ** What a [Deserialize] can do to the state *)

Lemma ReadProperty_outcome (T : CppType) (pType : option ezRTTI)
    (properties : list ezAbstractProperty) (s : State) :
  let sPropName := next_name s in
  NodeUserData_TypeAndProperty.ReadProperty T pType properties s
  = match NodeUserData_TypeAndProperty.ReadProperty_loop sPropName properties with
    | Some pProp => ((EZ_SUCCESS, Some pProp), set_stream (behind_name s) s)
    | None =>
        ((EZ_FAILURE, None),
         aborted (Error "{} '{}' not found on type '{}'"
                    [ if is_same T ty_ezAbstractFunctionProperty
                      then "Function" else "Property";
                      sPropName; arrow pType GetTypeName "" ])
           (behind_name s) s)
    end.
Proof.
  cbn zeta. unfold NodeUserData_TypeAndProperty.ReadProperty, bind.
  rewrite read_string_eq.
  now destruct (NodeUserData_TypeAndProperty.ReadProperty_loop _ _).
Qed.

Lemma Type_Deserialize_outcome (E : Environment) (s : State) :
  NodeUserData_Type.Deserialize E s
  = match FindTypeByName E (next_name s) with
    | Some pType =>
        (EZ_SUCCESS,
         placed (layout E) (UserData_Type {| m_pType := Some pType |}) (behind_name s) s)
    | None =>
        (EZ_FAILURE, aborted (Error "Unknown type '{}'" [next_name s]) (behind_name s) s)
    end.
Proof.
  unfold NodeUserData_Type.Deserialize, EZ_SUCCEED_OR_RETURN, bind.
  destruct (FindTypeByName E (next_name s)) as [pType|] eqn:H.
  - now rewrite (ReadType_resolved E s pType H).
  - now rewrite (ReadType_unresolved E s H).
Qed.

Lemma TypeAndProperty_Deserialize_outcome (PropIsFunction : bool) (E : Environment)
    (s : State) :
  let s1 := set_stream (behind_name s) s in
  NodeUserData_TypeAndProperty.Deserialize PropIsFunction E s
  = match FindTypeByName E (next_name s) with
    | Some pType =>
        match NodeUserData_TypeAndProperty.ReadProperty_loop (next_name s1)
                (members_of PropIsFunction pType) with
        | Some pProp =>
            (EZ_SUCCESS,
             placed (layout E)
               (UserData_TypeAndProperty
                  {| TypeAndProperty_base := {| m_pType := Some pType |};
                     m_pProperty := Some pProp |})
               (behind_name s1) s)
        | None =>
            (EZ_FAILURE,
             aborted (Error "{} '{}' not found on type '{}'"
                        ["Property"; next_name s1; GetTypeName pType])
               (behind_name s1) s)
        end
    | None =>
        (EZ_FAILURE, aborted (Error "Unknown type '{}'" [next_name s]) (behind_name s) s)
    end.
Proof.
  cbn zeta.
  unfold NodeUserData_TypeAndProperty.Deserialize, EZ_SUCCEED_OR_RETURN, bind.
  destruct (FindTypeByName E (next_name s)) as [pType|] eqn:H.
  - rewrite (ReadType_resolved E s pType H). cbn [fst snd arrow].
    destruct PropIsFunction; rewrite ReadProperty_outcome; cbn zeta; cbn [members_of];
      now destruct (NodeUserData_TypeAndProperty.ReadProperty_loop _ _).
  - now rewrite (ReadType_unresolved E s H).
Qed.

Lemma Comparison_Deserialize_outcome (E : Environment) (s : State) :
  let r := ezStream.ReadEnum (Default (ezComparisonOperator E)) (inout_stream s) in
  NodeUserData_Comparison.Deserialize E s
  = (EZ_SUCCESS,
     placed (layout E) (UserData_Comparison {| m_ComparisonOperator := fst r |}) (snd r) s).
Proof.
  cbn zeta. unfold NodeUserData_Comparison.Deserialize, bind, read_enum.
  now destruct (ezStream.ReadEnum _ _).
Qed.

Lemma StartCoroutine_Deserialize_outcome (E : Environment) (s : State) :
  let r := ezStream.ReadEnum (Default (ezScriptCoroutineCreationMode E)) (behind_name s) in
  NodeUserData_StartCoroutine.Deserialize E s
  = match FindTypeByName E (next_name s) with
    | Some pType =>
        (EZ_SUCCESS,
         placed (layout E)
           (UserData_StartCoroutine
              {| StartCoroutine_base := {| m_pType := Some pType |};
                 m_CreationMode := fst r |})
           (snd r) s)
    | None =>
        (EZ_FAILURE, aborted (Error "Unknown type '{}'" [next_name s]) (behind_name s) s)
    end.
Proof.
  cbn zeta.
  unfold NodeUserData_StartCoroutine.Deserialize, EZ_SUCCEED_OR_RETURN, bind.
  destruct (FindTypeByName E (next_name s)) as [pType|] eqn:H.
  - rewrite (ReadType_resolved E s pType H). cbn [fst snd].
    unfold read_enum. cbn [inout_stream set_stream].
    now destruct (ezStream.ReadEnum _ _).
  - now rewrite (ReadType_unresolved E s H).
Qed.

(** Whichever [Deserialize] runs, on whatever state: it either succeeds
    and has placed one record of its own variant, or fails and has logged
    one message. *)
Lemma Deserialize_outcome (E : Environment) (s : State) :
  Forall (fun '(v, _, Deserialize) =>
            (exists data rest,
                variant_of data = v
                /\ Deserialize s = (EZ_SUCCESS, placed (layout E) data rest s))
            \/ (exists msg rest, Deserialize s = (EZ_FAILURE, aborted msg rest s)))
    (variants E).
Proof.
  assert (Hok : forall v (out : ezResult * State) data rest,
             out = (EZ_SUCCESS, placed (layout E) data rest s) ->
             variant_of data = v ->
             (exists data rest,
                 variant_of data = v
                 /\ out = (EZ_SUCCESS, placed (layout E) data rest s))
             \/ (exists msg rest, out = (EZ_FAILURE, aborted msg rest s)))
    by (intros; left; eauto).
  assert (Hfail : forall v (out : ezResult * State) msg rest,
             out = (EZ_FAILURE, aborted msg rest s) ->
             (exists data rest,
                 variant_of data = v
                 /\ out = (EZ_SUCCESS, placed (layout E) data rest s))
             \/ (exists msg rest, out = (EZ_FAILURE, aborted msg rest s)))
    by (intros; right; eauto).
  unfold variants. repeat apply Forall_cons_2; try apply Forall_nil_2; cbn beta iota.
  - rewrite Type_Deserialize_outcome.
    destruct (FindTypeByName E (next_name s));
      [eapply Hok | eapply Hfail]; reflexivity.
  - rewrite TypeAndProperty_Deserialize_outcome.
    destruct (FindTypeByName E (next_name s)); [|eapply Hfail; reflexivity].
    destruct (NodeUserData_TypeAndProperty.ReadProperty_loop _ _);
      [eapply Hok | eapply Hfail]; reflexivity.
  - rewrite TypeAndProperty_Deserialize_outcome.
    destruct (FindTypeByName E (next_name s)); [|eapply Hfail; reflexivity].
    destruct (NodeUserData_TypeAndProperty.ReadProperty_loop _ _);
      [eapply Hok | eapply Hfail]; reflexivity.
  - rewrite Comparison_Deserialize_outcome. eapply Hok; reflexivity.
  - rewrite StartCoroutine_Deserialize_outcome.
    destruct (FindTypeByName E (next_name s));
      [eapply Hok | eapply Hfail]; reflexivity.
Qed.

(** X1.  Whichever [Deserialize] of the file runs, on whatever state, one of
    two things has happened afterwards.  Either it succeeded: nothing was
    logged, and the node refers to a record of the function's own variant,
    with that variant's size.  Or it failed: exactly one message was added to
    the log, and the node, the arena and the arena cursor are as they
    were. *)
Theorem X1_deserialize_all_or_nothing (E : Environment) (s : State) :
  Forall (fun '(v, _, Deserialize) =>
            let out : ezResult * State := Deserialize s in
            (fst out = EZ_SUCCESS
             /\ log (snd out) = log s
             /\ m_UserDataByteSize (ref_node (snd out)) = sizeof (layout E) v
             /\ exists data, variant_of data = v /\ GetUserData (snd out) = Some data)
            \/ (fst out = EZ_FAILURE
                /\ (exists msg, log (snd out) = log s ++ [msg])
                /\ ref_node (snd out) = ref_node s
                /\ inout_pAdditionalData (snd out) = inout_pAdditionalData s
                /\ arena (snd out) = arena s))
    (variants E).
Proof.
  eapply Forall_impl; [apply (Deserialize_outcome E s)|].
  intros [[v Serialize] Deserialize] [(data & rest & Hv & ->)|(msg & rest & ->)]; cbn zeta.
  - left. cbn [fst snd]. repeat split.
    + unfold placed, SetUserData. cbn. now rewrite Hv.
    + exists data. split; [exact Hv|]. apply GetUserData_SetUserData.
  - right. cbn. eauto 10.
Qed.

(** ** When a [Deserialize] succeeds *)

Lemma ReadProperty_loop_is_Some (sPropName : string) (properties : list ezAbstractProperty) :
  is_Some (NodeUserData_TypeAndProperty.ReadProperty_loop sPropName properties)
  <-> Exists (fun q => GetPropertyName q = sPropName) properties.
Proof.
  induction properties as [|q properties IH]; cbn.
  - split; [intros [? [=]] | intros H; inversion H].
  - destruct (String.eqb_spec sPropName (GetPropertyName q)) as [Heq|Hne].
    + split; [intros _; now left | eauto].
    + rewrite IH. split; [intros H; now right|].
      intros H. inversion H; subst; [congruence | assumption].
Qed.

Lemma TypeAndProperty_succeeds_iff (E : Environment) (s : State) (PropIsFunction : bool) :
  fst (NodeUserData_TypeAndProperty.Deserialize PropIsFunction E s) = EZ_SUCCESS
  <-> exists pType,
        FindTypeByName E (next_name s) = Some pType
        /\ Exists (fun q => GetPropertyName q
                            = next_name (set_stream (behind_name s) s))
             (members_of PropIsFunction pType).
Proof.
  rewrite TypeAndProperty_Deserialize_outcome.
  destruct (FindTypeByName E (next_name s)) as [pType|].
  - pose proof (ReadProperty_loop_is_Some
                  (next_name (set_stream (behind_name s) s))
                  (members_of PropIsFunction pType)) as Hloop.
    destruct (NodeUserData_TypeAndProperty.ReadProperty_loop _ _) as [pProp|]; cbn.
    + split; [|reflexivity]. intros _. exists pType. split; [reflexivity|].
      apply Hloop. eauto.
    + split; [discriminate|]. intros (pType' & [= <-] & Hex).
      apply Hloop in Hex. now destruct Hex.
  - cbn. split; [discriminate|]. now intros (? & [=] & _).
Qed.

(** X2.  [Deserialize] of Type and of StartCoroutine succeed exactly when
    the name read from the stream is a registered type.
    [Deserialize<PropIsFunction>] of TypeAndProperty succeeds exactly when,
    besides, the list it searches (the functions of the type if
    [PropIsFunction], its properties if not) has a member with the second
    name read.  Nothing else on the stream or in the state can make them
    fail. *)
Theorem X2_deserialize_succeeds_iff (E : Environment) (s : State) :
  (fst (NodeUserData_Type.Deserialize E s) = EZ_SUCCESS
   <-> is_Some (FindTypeByName E (next_name s)))
  /\ (fst (NodeUserData_StartCoroutine.Deserialize E s) = EZ_SUCCESS
      <-> is_Some (FindTypeByName E (next_name s)))
  /\ (forall PropIsFunction : bool,
        fst (NodeUserData_TypeAndProperty.Deserialize PropIsFunction E s) = EZ_SUCCESS
        <-> exists pType,
              FindTypeByName E (next_name s) = Some pType
              /\ Exists (fun q => GetPropertyName q
                                  = next_name (set_stream (behind_name s) s))
                   (members_of PropIsFunction pType)).
Proof.
  split; [|split].
  - rewrite Type_Deserialize_outcome.
    destruct (FindTypeByName E (next_name s)); cbn; split; eauto; try discriminate.
    intros [? [=]].
  - rewrite StartCoroutine_Deserialize_outcome.
    destruct (FindTypeByName E (next_name s)); cbn; split; eauto; try discriminate.
    intros [? [=]].
  - intros PropIsFunction. apply TypeAndProperty_succeeds_iff.
Qed.

(** ** Member lookup *)

(** X3.  When the type name resolves and no member of the list searched has
    the second name read, [Deserialize<PropIsFunction>] of TypeAndProperty
    fails behind that second name.  It logs one "not found on type"
    diagnostic, whose arguments end with the name sought and the name of the
    type, and it leaves the node, the arena and the arena cursor as they
    were. *)
Theorem X3_unresolved_member_aborts (E : Environment) (PropIsFunction : bool)
    (s : State) (pType : ezRTTI) :
  let s1 := set_stream (behind_name s) s in
  FindTypeByName E (next_name s) = Some pType ->
  Forall (fun q => GetPropertyName q <> next_name s1) (members_of PropIsFunction pType) ->
  let out := NodeUserData_TypeAndProperty.Deserialize PropIsFunction E s in
  fst out = EZ_FAILURE
  /\ (exists kind,
         log (snd out)
         = log s ++ [Error "{} '{}' not found on type '{}'"
                       [kind; next_name s1; GetTypeName pType]])
  /\ inout_stream (snd out) = behind_name s1
  /\ ref_node (snd out) = ref_node s
  /\ inout_pAdditionalData (snd out) = inout_pAdditionalData s
  /\ arena (snd out) = arena s.
Proof.
  intros s1 Hty Hnone out. subst out.
  apply ReadProperty_loop_None in Hnone.
  rewrite TypeAndProperty_Deserialize_outcome. fold s1. rewrite Hty, Hnone.
  cbn. eauto 10.
Qed.

Lemma X3_unresolved_member_aborts_witness :
  let s := Fixture.start
             (stream (NodeUserData_TypeAndProperty.Serialize Fixture.layout64
                        (Fixture.nodeDesc "Foo" "DoesNotExist") [])) in
  let out := NodeUserData_TypeAndProperty.Deserialize true Fixture.E s in
  fst out = EZ_FAILURE
  /\ (exists kind,
         log (snd out)
         = [Error "{} '{}' not found on type '{}'" [kind; "DoesNotExist"; "Foo"]])
  /\ inout_stream (snd out) = []
  /\ inout_pAdditionalData (snd out) = 3%N
  /\ arena (snd out) = ∅.
Proof.
  intros s out.
  assert (Hty : FindTypeByName Fixture.E (next_name s) = Some Fixture.Foo)
    by (vm_compute; reflexivity).
  assert (Hnone : Forall (fun q => GetPropertyName q
                                   <> next_name (set_stream (behind_name s) s))
                    (members_of true Fixture.Foo))
    by (repeat constructor; vm_compute; discriminate).
  destruct (X3_unresolved_member_aborts Fixture.E true s Fixture.Foo Hty Hnone)
    as (H1 & H2 & H3 & _ & H5 & H6).
  split; [exact H1|]. split; [exact H2|]. split; [exact H3|].
  split; [exact H5|exact H6].
Defined.

(** X4.  When several members of the list searched have the name read, the
    record gets the first of them in list order: if the list is [before],
    then [pProp], then [after], [pProp] has the name and no member of
    [before] has it, [Deserialize] succeeds with [pProp] in the record,
    whatever [after] holds. *)
Theorem X4_first_member_wins (E : Environment) (PropIsFunction : bool)
    (s : State) (pType : ezRTTI) (before after : list ezAbstractProperty)
    (pProp : ezAbstractProperty) :
  let s1 := set_stream (behind_name s) s in
  FindTypeByName E (next_name s) = Some pType ->
  members_of PropIsFunction pType = before ++ pProp :: after ->
  GetPropertyName pProp = next_name s1 ->
  Forall (fun q => GetPropertyName q <> next_name s1) before ->
  let out := NodeUserData_TypeAndProperty.Deserialize PropIsFunction E s in
  fst out = EZ_SUCCESS
  /\ GetUserData (snd out)
     = Some (UserData_TypeAndProperty
               {| TypeAndProperty_base := {| m_pType := Some pType |};
                  m_pProperty := Some pProp |}).
Proof.
  intros s1 Hty Hlist Hname Hbefore out. subst out.
  assert (Hloop : NodeUserData_TypeAndProperty.ReadProperty_loop (next_name s1)
                    (members_of PropIsFunction pType) = Some pProp)
    by (apply ReadProperty_loop_Some; eauto).
  rewrite TypeAndProperty_Deserialize_outcome. fold s1. rewrite Hty, Hloop.
  cbn [fst snd]. split; [reflexivity|]. apply GetUserData_SetUserData.
Qed.

Lemma X4_first_member_wins_witness :
  let s := Fixture.start
             (stream (NodeUserData_TypeAndProperty.Serialize Fixture.layout64
                        (Fixture.nodeDesc "Foo" "Bar") [])) in
  let out := NodeUserData_TypeAndProperty.Deserialize true Fixture.E s in
  members_of true Fixture.Foo = [Fixture.Baz] ++ Fixture.Bar :: [Fixture.Bar']
  /\ GetPropertyName Fixture.Bar' = GetPropertyName Fixture.Bar
  /\ fst out = EZ_SUCCESS
  /\ GetUserData (snd out)
     = Some (UserData_TypeAndProperty
               {| TypeAndProperty_base := {| m_pType := Some Fixture.Foo |};
                  m_pProperty := Some Fixture.Bar |}).
Proof.
  intros s out.
  assert (Hty : FindTypeByName Fixture.E (next_name s) = Some Fixture.Foo)
    by (vm_compute; reflexivity).
  assert (Hlist : members_of true Fixture.Foo
                  = [Fixture.Baz] ++ Fixture.Bar :: [Fixture.Bar']) by reflexivity.
  assert (Hname : GetPropertyName Fixture.Bar
                  = next_name (set_stream (behind_name s) s))
    by (vm_compute; reflexivity).
  assert (Hbefore : Forall (fun q => GetPropertyName q
                                     <> next_name (set_stream (behind_name s) s))
                      [Fixture.Baz])
    by (repeat constructor; vm_compute; discriminate).
  split; [exact Hlist|]. split; [reflexivity|].
  exact (X4_first_member_wins Fixture.E true s Fixture.Foo [Fixture.Baz] [Fixture.Bar']
           Fixture.Bar Hty Hlist Hname Hbefore).
Defined.

(** ** What [Serialize] reports and what [Deserialize] places *)

Lemma align_up_ge (offset alignment : N) :
  (0 < alignment)%N -> (offset <= align_up offset alignment)%N.
Proof.
  intros Ha. unfold align_up.
  pose proof (N.div_mod (offset + alignment - 1) alignment ltac:(lia)) as Hdm.
  pose proof (N.mod_upper_bound (offset + alignment - 1) alignment ltac:(lia)) as Hlt.
  nia.
Qed.

(** Each [Serialize] reports size and alignment of the variant its
    [Deserialize] builds, and appends the same bytes whatever is on the
    stream already. *)
Lemma Serialize_report (E : Environment) :
  Forall (fun '(v, Serialize, _) =>
            forall nodeDesc inout_stream,
              result (Serialize nodeDesc inout_stream) = EZ_SUCCESS
              /\ out_uiSize (Serialize nodeDesc inout_stream) = sizeof (layout E) v
              /\ out_uiAlignment (Serialize nodeDesc inout_stream)
                 = EZ_ALIGNMENT_OF (layout E) v
              /\ stream (Serialize nodeDesc inout_stream)
                 = inout_stream ++ stream (Serialize nodeDesc []))
    (variants E).
Proof.
  unfold variants. repeat apply Forall_cons_2; try apply Forall_nil_2; cbn beta iota;
    intros nodeDesc inout_stream;
    unfold NodeUserData_Type.Serialize, NodeUserData_TypeAndProperty.Serialize,
      NodeUserData_Comparison.Serialize, NodeUserData_StartCoroutine.Serialize;
    cbn [result stream out_uiSize out_uiAlignment NodeUserData_Type.Serialize];
    rewrite ?WriteString_app, ?WriteEnum_app, ?app_nil_l, <- ?app_assoc; auto.
Qed.

Lemma placement_agrees (E : Environment) (v : Variant)
    (Serialize : SerializeFunction) (Deserialize : DeserializeFunction) :
  In (v, Serialize, Deserialize) (variants E) ->
  forall nodeDesc inout_stream s,
    let report := Serialize nodeDesc inout_stream in
    let out := Deserialize s in
    fst out = EZ_SUCCESS ->
    m_UserDataByteSize (ref_node (snd out)) = out_uiSize report
    /\ m_UserData (ref_node (snd out))
       = align_up (inout_pAdditionalData s) (out_uiAlignment report)
    /\ inout_pAdditionalData (snd out)
       = (m_UserData (ref_node (snd out)) + out_uiSize report)%N.
Proof.
  intros Hin nodeDesc inout_stream s report out Hok. subst report out.
  pose proof (proj1 (List.Forall_forall _ _) (Serialize_report E) _ Hin) as Hrep.
  pose proof (proj1 (List.Forall_forall _ _) (Deserialize_outcome E s) _ Hin) as Hout.
  cbn beta iota in Hrep, Hout.
  destruct (Hrep nodeDesc inout_stream) as (_ & -> & -> & _).
  destruct Hout as [(data & rest & <- & Heq)|(msg & rest & Heq)];
    rewrite Heq in Hok |- *; [|discriminate Hok].
  unfold placed, SetUserData. cbn. auto.
Qed.

(** X5.  In the dispatch table every entry is either empty or complete: no
    entry has one of its three functions without the other two.  In a
    complete entry the two ends agree: whenever its deserialize function
    succeeds, the size the node records is the size its serialize function
    reports, the offset of the record is the arena cursor rounded up to the
    alignment its serialize function reports, and the cursor ends right
    behind the record. *)
Theorem X5_table_entries_paired (E : Environment) :
  Forall (fun c =>
            match m_SerializeFunc c, m_DeserializeFunc c, m_ToStringFunc c with
            | Some Serialize, Some Deserialize, Some _ =>
                forall nodeDesc inout_stream s,
                  let report : Serialized := Serialize nodeDesc inout_stream in
                  let out : ezResult * State := Deserialize s in
                  fst out = EZ_SUCCESS ->
                  m_UserDataByteSize (ref_node (snd out)) = out_uiSize report
                  /\ m_UserData (ref_node (snd out))
                     = align_up (inout_pAdditionalData s) (out_uiAlignment report)
                  /\ inout_pAdditionalData (snd out)
                     = (m_UserData (ref_node (snd out)) + out_uiSize report)%N
            | None, None, None => True
            | _, _, _ => False
            end)
    (s_TypeToUserDataContexts E).
Proof.
  unfold s_TypeToUserDataContexts.
  repeat apply Forall_cons_2; try apply Forall_nil_2;
    cbn [m_SerializeFunc m_DeserializeFunc m_ToStringFunc empty_context
         TypeAndProperty_context Comparison_context Type_context StartCoroutine_context];
    try exact I.
  - apply (placement_agrees E V_TypeAndProperty). cbn. auto.
  - apply (placement_agrees E V_TypeAndProperty). cbn. auto.
  - apply (placement_agrees E V_Comparison). cbn. auto 10.
  - apply (placement_agrees E V_Type). cbn. auto.
  - apply (placement_agrees E V_StartCoroutine). cbn. auto 10.
Qed.

(** ** Nodes one after the other *)

Lemma set_stream_same (s : State) : set_stream (inout_stream s) s = s.
Proof. now destruct s. Qed.

Lemma placed_fields (L : Layout) (data : UserData) (rest : list byte) (s : State) :
  let offset := align_up (inout_pAdditionalData s) (EZ_ALIGNMENT_OF L (variant_of data)) in
  ref_node (placed L data rest s)
  = {| m_UserDataByteSize := sizeof L (variant_of data); m_UserData := offset |}
  /\ inout_pAdditionalData (placed L data rest s)
     = (offset + sizeof L (variant_of data))%N
  /\ arena (placed L data rest s) = <[offset := data]> (arena s).
Proof. repeat split. Qed.

(** X6.  Two nodes written one after the other are read back one after the
    other.  Take any two of the file's [Serialize]/[Deserialize] pairs and
    two descriptions each of which round-trips on its own, in a layout where
    sizes and alignments are positive.  After the second [Serialize] has
    appended to what the first wrote, the first [Deserialize] succeeds and
    stops where the second node begins, the second succeeds and leaves what
    follows, nothing is logged, both records are in the arena at the offsets
    the two nodes got, and the second record starts at or behind the end of
    the first. *)
Theorem X6_back_to_back (E : Environment) (s : State) (rest : list byte)
    (v1 v2 : Variant)
    (Serialize1 Serialize2 : SerializeFunction)
    (Deserialize1 Deserialize2 : DeserializeFunction)
    (nodeDesc1 nodeDesc2 : Desc.t) (expected1 expected2 : UserData) :
  layout_positive (layout E) ->
  In (v1, Serialize1, Deserialize1) (variants E) ->
  In (v2, Serialize2, Deserialize2) (variants E) ->
  round_trips Serialize1 Deserialize1 nodeDesc1 expected1 ->
  round_trips Serialize2 Deserialize2 nodeDesc2 expected2 ->
  let bytes := stream (Serialize2 nodeDesc2 (stream (Serialize1 nodeDesc1 []))) in
  let out1 := Deserialize1 (set_stream (bytes ++ rest) s) in
  let out2 := Deserialize2 (snd out1) in
  let node1 := ref_node (snd out1) in
  let node2 := ref_node (snd out2) in
  fst out1 = EZ_SUCCESS
  /\ fst out2 = EZ_SUCCESS
  /\ inout_stream (snd out2) = rest
  /\ log (snd out2) = log s
  /\ arena (snd out2) !! m_UserData node1 = Some expected1
  /\ arena (snd out2) !! m_UserData node2 = Some expected2
  /\ (m_UserData node1 + m_UserDataByteSize node1 <= m_UserData node2)%N.
Proof.
  intros Hpos Hin1 Hin2 Hrt1 Hrt2 bytes out1 out2 node1 node2.
  pose proof (proj1 (List.Forall_forall _ _) (Serialize_report E) _ Hin2) as Hrep2.
  cbn beta iota in Hrep2.
  destruct (Hrep2 nodeDesc2 (stream (Serialize1 nodeDesc1 []))) as (_ & _ & _ & Happ).
  assert (Hbytes : bytes ++ rest
                   = stream (Serialize1 nodeDesc1 [])
                     ++ (stream (Serialize2 nodeDesc2 []) ++ rest))
    by (subst bytes; rewrite Happ, <- app_assoc; reflexivity).
  set (s0 := set_stream (bytes ++ rest) s) in *.
  destruct (Hrt1 s (stream (Serialize2 nodeDesc2 []) ++ rest)) as (Hok1 & Hs1 & Hl1 & Hd1).
  rewrite <- Hbytes in Hok1, Hs1, Hl1, Hd1. fold s0 in Hok1, Hs1, Hl1, Hd1.
  fold out1 in Hok1, Hs1, Hl1, Hd1.
  pose proof (proj1 (List.Forall_forall _ _) (Deserialize_outcome E s0) _ Hin1) as Hout1.
  cbn beta iota in Hout1. fold out1 in Hout1.
  destruct Hout1 as [(data1 & rest1 & Hv1 & Heq1)|(msg & rest1 & Heq1)];
    [|rewrite Heq1 in Hok1; discriminate Hok1].
  destruct (Hrt2 (snd out1) rest) as (Hok2 & Hs2 & Hl2 & Hd2).
  rewrite <- Hs1, set_stream_same in Hok2, Hs2, Hl2, Hd2.
  fold out2 in Hok2, Hs2, Hl2, Hd2.
  pose proof (proj1 (List.Forall_forall _ _) (Deserialize_outcome E (snd out1)) _ Hin2) as Hout2.
  cbn beta iota in Hout2. fold out2 in Hout2.
  destruct Hout2 as [(data2 & rest2 & Hv2 & Heq2)|(msg & rest2 & Heq2)];
    [|rewrite Heq2 in Hok2; discriminate Hok2].
  destruct (Hpos v1) as [Hsize1 _]. destruct (Hpos v2) as [_ Halign2].
  assert (Hs1' : snd out1 = placed (layout E) data1 rest1 s0) by (now rewrite Heq1).
  assert (Hs2' : snd out2 = placed (layout E) data2 rest2 (snd out1)) by (now rewrite Heq2).
  destruct (placed_fields (layout E) data1 rest1 s0) as (Hn1 & Hc1 & Ha1).
  destruct (placed_fields (layout E) data2 rest2 (snd out1)) as (Hn2 & Hc2 & Ha2).
  rewrite <- Hs1', Hv1 in Hn1, Hc1, Ha1. rewrite <- Hs2', Hv2 in Hn2, Hc2, Ha2.
  set (o1 := align_up (inout_pAdditionalData s0) (EZ_ALIGNMENT_OF (layout E) v1)) in *.
  set (o2 := align_up (inout_pAdditionalData (snd out1)) (EZ_ALIGNMENT_OF (layout E) v2)) in *.
  assert (Ho : (o1 + sizeof (layout E) v1 <= o2)%N).
  { subst o2. rewrite Hc1. now apply align_up_ge. }
  assert (He1 : data1 = expected1).
  { unfold GetUserData in Hd1. rewrite Ha1, Hn1 in Hd1. cbn in Hd1.
    rewrite lookup_insert_eq in Hd1. congruence. }
  assert (He2 : data2 = expected2).
  { unfold GetUserData in Hd2. rewrite Ha2, Hn2 in Hd2. cbn in Hd2.
    rewrite lookup_insert_eq in Hd2. congruence. }
  subst node1 node2. rewrite Hn1, Hn2, Ha2, Ha1. cbn [m_UserData m_UserDataByteSize].
  repeat split; try assumption.
  - congruence.
  - rewrite lookup_insert_ne by lia. rewrite lookup_insert_eq. now rewrite He1.
  - rewrite lookup_insert_eq. now rewrite He2.
Qed.

Lemma X6_back_to_back_witness :
  let nodeDesc := Fixture.nodeDesc "Foo" "Bar" in
  let bytes :=
    stream (NodeUserData_Comparison.Serialize Fixture.layout64 nodeDesc
              (stream (NodeUserData_TypeAndProperty.Serialize Fixture.layout64 nodeDesc []))) in
  let out1 := NodeUserData_TypeAndProperty.Deserialize true Fixture.E (Fixture.start bytes) in
  let out2 := NodeUserData_Comparison.Deserialize Fixture.E (snd out1) in
  layout_positive Fixture.layout64
  /\ fst out1 = EZ_SUCCESS
  /\ fst out2 = EZ_SUCCESS
  /\ inout_stream (snd out2) = []
  /\ arena (snd out2) !! m_UserData (ref_node (snd out1))
     = Some (UserData_TypeAndProperty
               {| TypeAndProperty_base := {| m_pType := Some Fixture.Foo |};
                  m_pProperty := Some Fixture.Bar |})
  /\ arena (snd out2) !! m_UserData (ref_node (snd out2))
     = Some (UserData_Comparison {| m_ComparisonOperator := x04 |}).
Proof.
  intros nodeDesc bytes out1 out2.
  assert (Hpos : layout_positive (layout Fixture.E))
    by (intros []; split; vm_compute; reflexivity).
  assert (Hrt1 : round_trips (NodeUserData_TypeAndProperty.Serialize Fixture.layout64)
                   (NodeUserData_TypeAndProperty.Deserialize true Fixture.E) nodeDesc
                   (UserData_TypeAndProperty
                      {| TypeAndProperty_base := {| m_pType := Some Fixture.Foo |};
                         m_pProperty := Some Fixture.Bar |})).
  { apply (round_trips_TypeAndProperty Fixture.E nodeDesc true Fixture.Foo Fixture.Bar);
      vm_compute; reflexivity. }
  pose proof (round_trips_Comparison Fixture.E nodeDesc) as Hrt2.
  assert (Hin1 : In (V_TypeAndProperty,
                     NodeUserData_TypeAndProperty.Serialize (layout Fixture.E),
                     NodeUserData_TypeAndProperty.Deserialize true Fixture.E)
                   (variants Fixture.E)) by (right; left; reflexivity).
  assert (Hin2 : In (V_Comparison,
                     NodeUserData_Comparison.Serialize (layout Fixture.E),
                     NodeUserData_Comparison.Deserialize Fixture.E)
                   (variants Fixture.E)) by (do 3 right; left; reflexivity).
  destruct (X6_back_to_back Fixture.E (Fixture.start []) [] _ _ _ _ _ _
              nodeDesc nodeDesc _ _ Hpos Hin1 Hin2 Hrt1 Hrt2)
    as (H1 & H2 & H3 & _ & H5 & H6 & _).
  split; [exact Hpos|].
  split; [exact H1|]. split; [exact H2|]. split; [exact H3|].
  split; [exact H5|exact H6].
Defined.

(** ** The stream can be read in one way only *)

Lemma StringBytes_inj (s1 s2 : string) (r1 r2 : list byte) :
  valid_name s1 -> valid_name s2 ->
  ezStream.StringBytes s1 ++ r1 = ezStream.StringBytes s2 ++ r2 ->
  s1 = s2 /\ r1 = r2.
Proof.
  intros H1 H2 Heq.
  pose proof (ReadString_StringBytes s1 r1 H1) as Hr1.
  rewrite Heq, (ReadString_StringBytes s2 r2 H2) in Hr1.
  now injection Hr1 as -> ->.
Qed.

(** X7.  What [Serialize] writes determines the fields it wrote, and where
    the record ends: if the bytes two descriptions serialize to, each
    followed by anything, are the same bytes, then the descriptions have the
    same type name (Type), the same type and property names
    (TypeAndProperty), the same operator (Comparison), the same type name and
    creation mode (StartCoroutine), and what follows is the same.  The names
    are names an [ezString] can hold. *)
Theorem X7_serialize_unambiguous (L : Layout) (d1 d2 : Desc.t) (r1 r2 : list byte) :
  valid_name (Desc.m_sTargetTypeName d1) ->
  valid_name (Desc.m_sTargetTypeName d2) ->
  valid_name (Desc.m_sTargetPropertyName d1) ->
  valid_name (Desc.m_sTargetPropertyName d2) ->
  (stream (NodeUserData_Type.Serialize L d1 []) ++ r1
   = stream (NodeUserData_Type.Serialize L d2 []) ++ r2 ->
   Desc.m_sTargetTypeName d1 = Desc.m_sTargetTypeName d2 /\ r1 = r2)
  /\ (stream (NodeUserData_TypeAndProperty.Serialize L d1 []) ++ r1
      = stream (NodeUserData_TypeAndProperty.Serialize L d2 []) ++ r2 ->
      Desc.m_sTargetTypeName d1 = Desc.m_sTargetTypeName d2
      /\ Desc.m_sTargetPropertyName d1 = Desc.m_sTargetPropertyName d2
      /\ r1 = r2)
  /\ (stream (NodeUserData_Comparison.Serialize L d1 []) ++ r1
      = stream (NodeUserData_Comparison.Serialize L d2 []) ++ r2 ->
      Desc.m_ComparisonOperator d1 = Desc.m_ComparisonOperator d2 /\ r1 = r2)
  /\ (stream (NodeUserData_StartCoroutine.Serialize L d1 []) ++ r1
      = stream (NodeUserData_StartCoroutine.Serialize L d2 []) ++ r2 ->
      Desc.m_sTargetTypeName d1 = Desc.m_sTargetTypeName d2
      /\ Desc.m_CoroutineCreationMode d1 = Desc.m_CoroutineCreationMode d2
      /\ r1 = r2).
Proof.
  intros Ht1 Ht2 Hp1 Hp2.
  unfold NodeUserData_Type.Serialize, NodeUserData_TypeAndProperty.Serialize,
    NodeUserData_Comparison.Serialize, NodeUserData_StartCoroutine.Serialize.
  cbn [result stream NodeUserData_Type.Serialize].
  rewrite ?WriteString_app, ?WriteEnum_app, ?app_nil_l, <- ?app_assoc.
  split; [|split; [|split]].
  - now apply StringBytes_inj.
  - intros H. apply StringBytes_inj in H as [Ht H]; [|assumption..].
    apply StringBytes_inj in H as [Hp H]; auto.
  - intros [= H1 H2]. auto.
  - intros H. apply StringBytes_inj in H as [Ht H]; [|assumption..].
    injection H as H1 H2. auto.
Qed.

Lemma X7_serialize_unambiguous_witness :
  let d1 := Fixture.nodeDesc "Foo" "Bar" in
  let d2 := Fixture.nodeDesc "Fo" "oBar" in
  stream (NodeUserData_TypeAndProperty.Serialize Fixture.layout64 d1 [])
  <> stream (NodeUserData_TypeAndProperty.Serialize Fixture.layout64 d2 []).
Proof.
  intros d1 d2 Heq.
  assert (Hv : forall s, In s ["Foo"; "Bar"; "Fo"; "oBar"]%string -> valid_name s).
  { intros s Hs. cbn in Hs.
    repeat (destruct Hs as [<-|Hs]; [vm_compute; reflexivity|]). destruct Hs. }
  destruct (X7_serialize_unambiguous Fixture.layout64 d1 d2 [] [])
    as (_ & H & _); try (apply Hv; cbn; auto).
  rewrite !app_nil_r in H. destruct (H Heq) as [Hne _]. discriminate Hne.
Defined.

(** ** Diagnostics name what the description named *)

(** X8.  When a description is serialized and read back against a registry
    that lacks its type name, the one message logged is "Unknown type" with
    that very name, whichever of Type, TypeAndProperty or StartCoroutine is
    read.  When the type is registered as [pType] and no member of the list
    searched has the description's property name, the one message logged by
    TypeAndProperty is "not found on type" with that property name and the
    name of [pType].  In both cases the result is a failure. *)
Theorem X8_diagnostic_names_description (E : Environment) (nodeDesc : Desc.t)
    (s : State) (rest : list byte) :
  valid_name (Desc.m_sTargetTypeName nodeDesc) ->
  valid_name (Desc.m_sTargetPropertyName nodeDesc) ->
  let on (Serialize : SerializeFunction) (Deserialize : DeserializeFunction) :=
    Deserialize (set_stream (stream (Serialize nodeDesc []) ++ rest) s) in
  let unknown_type (out : ezResult * State) :=
    fst out = EZ_FAILURE
    /\ log (snd out)
       = log s ++ [Error "Unknown type '{}'" [Desc.m_sTargetTypeName nodeDesc]] in
  (resolve_type E nodeDesc = None ->
   unknown_type (on (NodeUserData_Type.Serialize (layout E))
                    (NodeUserData_Type.Deserialize E))
   /\ (forall PropIsFunction,
         unknown_type (on (NodeUserData_TypeAndProperty.Serialize (layout E))
                          (NodeUserData_TypeAndProperty.Deserialize PropIsFunction E)))
   /\ unknown_type (on (NodeUserData_StartCoroutine.Serialize (layout E))
                       (NodeUserData_StartCoroutine.Deserialize E)))
  /\ (forall PropIsFunction pType,
        resolve_type E nodeDesc = Some pType ->
        resolve_member PropIsFunction pType nodeDesc = None ->
        let out := on (NodeUserData_TypeAndProperty.Serialize (layout E))
                      (NodeUserData_TypeAndProperty.Deserialize PropIsFunction E) in
        fst out = EZ_FAILURE
        /\ exists kind,
             log (snd out)
             = log s ++ [Error "{} '{}' not found on type '{}'"
                           [kind; Desc.m_sTargetPropertyName nodeDesc;
                            GetTypeName pType]]).
Proof.
  intros Hvt Hvp on unknown_type. subst on unknown_type. cbn beta.
  unfold NodeUserData_Type.Serialize, NodeUserData_TypeAndProperty.Serialize,
    NodeUserData_StartCoroutine.Serialize.
  cbn [result stream NodeUserData_Type.Serialize].
  rewrite ?WriteString_app, ?WriteEnum_app, ?app_nil_l, <- ?app_assoc.
  split.
  - intros Hnone.
    assert (H : forall tail (Deserialize : DeserializeFunction) s0,
               s0 = set_stream (ezStream.StringBytes (Desc.m_sTargetTypeName nodeDesc)
                                  ++ tail) s ->
               fails_with_UnresolvedType s0 (Deserialize s0) ->
               fst (Deserialize s0) = EZ_FAILURE
               /\ log (snd (Deserialize s0))
                  = log s ++ [Error "Unknown type '{}'"
                                [Desc.m_sTargetTypeName nodeDesc]]).
    { intros tail Deserialize s0 -> (Hf & Hl & _).
      destruct (next_name_StringBytes _ tail s Hvt) as [Hn _].
      rewrite Hn in Hl. auto. }
    assert (Hs0 : forall tail,
               FindTypeByName E
                 (next_name (set_stream
                               (ezStream.StringBytes (Desc.m_sTargetTypeName nodeDesc)
                                  ++ tail) s)) = None).
    { intros tail. destruct (next_name_StringBytes _ tail s Hvt) as [-> _]. exact Hnone. }
    split; [|split].
    + eapply H; [reflexivity|].
      rewrite Type_Deserialize_outcome, Hs0.
      unfold fails_with_UnresolvedType. cbn. auto 10.
    + intros PropIsFunction. eapply H; [reflexivity|].
      rewrite TypeAndProperty_Deserialize_outcome, Hs0.
      unfold fails_with_UnresolvedType. cbn. auto 10.
    + eapply H; [reflexivity|].
      rewrite StartCoroutine_Deserialize_outcome, Hs0.
      unfold fails_with_UnresolvedType. cbn. auto 10.
  - intros PropIsFunction pType Hty Hmem.
    set (tail := ezStream.StringBytes (Desc.m_sTargetPropertyName nodeDesc) ++ rest).
    set (s0 := set_stream (ezStream.StringBytes (Desc.m_sTargetTypeName nodeDesc) ++ tail) s).
    destruct (next_name_StringBytes _ tail s Hvt) as [Hn Hb]. fold s0 in Hn, Hb.
    destruct (next_name_StringBytes _ rest s0 Hvp) as [Hn' Hb']. fold tail in Hn', Hb'.
    unfold resolve_member in Hmem. rewrite <- ReadProperty_loop_find in Hmem.
    rewrite TypeAndProperty_Deserialize_outcome.
    rewrite Hn, Hb, Hn'. unfold resolve_type in Hty. unfold FindTypeByName.
    rewrite Hty, Hmem. cbn. eauto.
Qed.

Lemma X8_diagnostic_names_description_witness :
  let out :=
    NodeUserData_StartCoroutine.Deserialize Fixture.E
      (set_stream
         (stream (NodeUserData_StartCoroutine.Serialize Fixture.layout64
                    (Fixture.nodeDesc "Nonexistent" "") []) ++ [])
         (Fixture.start [])) in
  fst out = EZ_FAILURE
  /\ log (snd out) = [] ++ [Error "Unknown type '{}'" ["Nonexistent"]].
Proof.
  intros out.
  destruct (X8_diagnostic_names_description Fixture.E (Fixture.nodeDesc "Nonexistent" "")
              (Fixture.start []) [])
    as [H _]; [vm_compute; reflexivity | vm_compute; reflexivity |].
  destruct H as (_ & _ & H); [vm_compute; reflexivity|].
  exact H.
Defined.

(** ** Labels *)

Lemma string_app_assoc (a b c : string) : (a +:+ b) +:+ c = a +:+ (b +:+ c).
Proof.
  induction a as [|x a IH]; [reflexivity|].
  change (String x ((a +:+ b) +:+ c) = String x (a +:+ (b +:+ c))). now f_equal.
Qed.

(** X9.  Every [ToString] only appends to the label it is given: the result
    is that label followed by what the function yields on the empty label.
    What it appends does not depend on the label so far. *)
Theorem X9_describe_appends (E : Environment) (nodeDesc : Desc.t) (out_sResult : string) :
  Forall (fun ToString : ToStringFunction =>
            ToString nodeDesc out_sResult = out_sResult +:+ ToString nodeDesc "")
    [ NodeUserData_Type.ToString;
      NodeUserData_TypeAndProperty.ToString;
      NodeUserData_Comparison.ToString E;
      NodeUserData_StartCoroutine.ToString E ].
Proof.
  repeat apply Forall_cons_2; try apply Forall_nil_2.
  - now rewrite !Type_ToString_append.
  - unfold NodeUserData_TypeAndProperty.ToString. rewrite !Type_ToString_append.
    destruct (IsEmpty (Desc.m_sTargetPropertyName nodeDesc)); cbn [negb];
      [reflexivity | now rewrite string_app_assoc].
  - reflexivity.
  - unfold NodeUserData_StartCoroutine.ToString. rewrite !Type_ToString_append.
    now rewrite string_app_assoc.
Qed.

(** ** The records in memory *)

(** X10.  Laid out from the members they declare, [NodeUserData_Type] takes
    8 bytes and [NodeUserData_TypeAndProperty] 16 on a 32-bit platform as on
    a 64-bit one, which is what the [static_assert]s behind them demand: on
    32 bit each 4-byte pointer is followed by its [m_uiPadding].  Their
    alignment is that of a pointer, and each size is a multiple of the
    alignment. *)
Theorem X10_padded_records (p : Platform) :
  let L := struct_layout p in
  sizeof L V_Type = 8%N
  /\ sizeof L V_TypeAndProperty = 16%N
  /\ EZ_ALIGNMENT_OF L V_Type = member_align (pointer p)
  /\ EZ_ALIGNMENT_OF L V_TypeAndProperty = member_align (pointer p)
  /\ (sizeof L V_Type mod EZ_ALIGNMENT_OF L V_Type = 0)%N
  /\ (sizeof L V_TypeAndProperty mod EZ_ALIGNMENT_OF L V_TypeAndProperty = 0)%N.
Proof. destruct p; repeat split. Qed.

(** X11.  [NodeUserData_StartCoroutine] declares no padding of its own.
    Laid out from its members, a [NodeUserData_Type] followed by an [ezEnum]
    whose storage is an integer of 1, 2 or 4 bytes, it takes 16 bytes on a
    64-bit platform and 12 on a 32-bit one: the [static_assert] that its
    size is 16 holds in a 64-bit build and stops a 32-bit build. *)
Theorem X11_StartCoroutine_record (bytes : N) :
  bytes = 1%N \/ bytes = 2%N \/ bytes = 4%N ->
  member_size (struct_ (StartCoroutine_members EZ_PLATFORM_64BIT (ezUInt bytes))) = 16%N
  /\ member_size (struct_ (StartCoroutine_members EZ_PLATFORM_32BIT (ezUInt bytes))) = 12%N
  /\ StartCoroutine_members EZ_PLATFORM_64BIT ezEnum_storage
     = members EZ_PLATFORM_64BIT V_StartCoroutine
  /\ StartCoroutine_members EZ_PLATFORM_32BIT ezEnum_storage
     = members EZ_PLATFORM_32BIT V_StartCoroutine.
Proof. intros [->|[->| ->]]; repeat split. Qed.

Lemma X11_StartCoroutine_record_witness :
  member_size (struct_ (StartCoroutine_members EZ_PLATFORM_64BIT (ezUInt 1))) = 16%N
  /\ member_size (struct_ (StartCoroutine_members EZ_PLATFORM_32BIT (ezUInt 1))) = 12%N.
Proof.
  destruct (X11_StartCoroutine_record 1) as (H1 & H2 & _); [left; reflexivity|].
  split; [exact H1|exact H2].
Defined.

(** ** Blackboard entry flags *)

Section BlackboardFlags.

Import ezBlackboardEntryFlags.

(** X12.  The flags of a blackboard entry and the bit-fields of [Bits] are
    the same bits.  The bit-fields fill the 16 bits of the storage type
    exactly.  Every enumerant other than [None] and [Default], which are 0,
    is the mask of the bit-field of its own name, one bit wide; so all of
    them fit the storage type and no two of them share a bit.  None of them
    touches the five [Reserved] bits, bits 2 to 6. *)
Theorem X12_flags_match_bits :
  fold_left (fun n f => (n + snd f)%N) Bits 0%N = StorageType_bits
  /\ (forall e,
        e = None_ \/ e = Default_ \/
        exists first, bit_field (name e) Bits 0 = Some (first, 1%N)
                      /\ value e = mask first 1)
  /\ (forall e, (value e < 2 ^ StorageType_bits)%N)
  /\ (forall e1 e2, value e1 = value e2 \/ N.land (value e1) (value e2) = 0%N)
  /\ bit_field "Reserved" Bits 0 = Some (2%N, 5%N)
  /\ (forall e, N.land (value e) (mask 2 5) = 0%N)
  /\ value None_ = 0%N /\ value Default_ = value None_.
Proof.
  split; [reflexivity|]. split.
  { intros []; auto; right; right; eexists; split; reflexivity. }
  split; [intros []; reflexivity|]. split.
  { intros [] []; vm_compute; auto. }
  split; [reflexivity|]. split; [intros []; reflexivity|]. split; reflexivity.
Qed.

End BlackboardFlags.

(** ** The table looks members up among the functions *)

(** X13.  Both tags that carry a TypeAndProperty payload, [ReflectedFunction]
    and [InplaceCoroutine], are dispatched to the function lookup: when the
    type name resolves, the deserialize function of their table entry
    succeeds exactly when a function of the type has the member name read.
    The properties of the type play no part: a name that only a property
    has is not found. *)
Theorem X13_table_searches_functions (E : Environment) (t : Desc.Type_.Enum)
    (c : UserDataContext) (Deserialize : DeserializeFunction) (s : State)
    (pType : ezRTTI) :
  t = Desc.Type_.ReflectedFunction \/ t = Desc.Type_.InplaceCoroutine ->
  GetUserDataContext E t = Some c ->
  m_DeserializeFunc c = Some Deserialize ->
  FindTypeByName E (next_name s) = Some pType ->
  fst (Deserialize s) = EZ_SUCCESS
  <-> Exists (fun q => GetPropertyName q
                       = next_name (set_stream (behind_name s) s))
        (GetFunctions pType).
Proof.
  intros Ht Hc Hd Hty.
  assert (Deserialize = NodeUserData_TypeAndProperty.Deserialize true E) as ->.
  { destruct Ht as [-> | ->]; cbv [GetUserDataContext] in Hc; cbn in Hc;
      injection Hc as <-; cbn in Hd; congruence. }
  destruct (TypeAndProperty_succeeds_iff E s true) as [H1 H2].
  split.
  - intros Hok. destruct (H1 Hok) as (pType' & Hty' & Hex).
    rewrite Hty in Hty'. now injection Hty' as <-.
  - intros Hex. apply H2. eauto.
Qed.

Lemma X13_table_searches_functions_witness :
  let s := Fixture.start
             (stream (NodeUserData_TypeAndProperty.Serialize Fixture.layout64
                        (Fixture.nodeDesc "Clock" "Tick") [])) in
  In Fixture2.Tick (GetProperties Fixture2.Clock)
  /\ exists c Deserialize,
       GetUserDataContext Fixture2.E Desc.Type_.ReflectedFunction = Some c
       /\ m_DeserializeFunc c = Some Deserialize
       /\ fst (Deserialize s) = EZ_FAILURE.
Proof.
  intros s. split; [left; reflexivity|].
  exists (TypeAndProperty_context Fixture2.E),
         (NodeUserData_TypeAndProperty.Deserialize true Fixture2.E).
  split; [reflexivity|]. split; [reflexivity|].
  assert (Hty : FindTypeByName Fixture2.E (next_name s) = Some Fixture2.Clock)
    by (vm_compute; reflexivity).
  pose proof (X13_table_searches_functions Fixture2.E Desc.Type_.ReflectedFunction
                (TypeAndProperty_context Fixture2.E)
                (NodeUserData_TypeAndProperty.Deserialize true Fixture2.E)
                s Fixture2.Clock (or_introl eq_refl) eq_refl eq_refl Hty) as [H _].
  destruct (fst (NodeUserData_TypeAndProperty.Deserialize true Fixture2.E s));
    [|reflexivity].
  exfalso. specialize (H eq_refl).
  apply (proj1 (List.Exists_exists _ _)) in H. destruct H as (q & Hq & Hname).
  destruct Hq as [<-|[]]. vm_compute in Hname. discriminate Hname.
Defined.

(** ** The arena only grows *)


